(** * Scraping scripts: cost accounting, result shapes and the page materializer

    A shallow embedding of the parts of

      - code/autonation_consumer_reviews_live.py   (modules [Reviews] and
                                                    [ReviewsPage])
      - code/autonation_live_scrape_minimal.py     (module [Minimal])
      - code/autonation_live_scrape.py             (module [LiveScrape])

    that compute something: the coercion of cost fields, the summation of
    the per-node costs, the resolution of the record count, the projection
    arithmetic with its formatting, and the Playwright session that renders
    the page.

    Conventions.
      - A Python [str] is a [string]; its characters are read as the code
        points U+0000..U+00FF.
      - A Python [float] is an IEEE 754 binary64 number, [spec_float] at
        precision 53 and maximal exponent 1024, rounded to nearest even.
      - A Python [dict] with [str] keys is an association list in insertion
        order.
      - A Python exception is a value of [exn]; a computation that may raise
        returns a [result]. *)

From Stdlib Require Import ZArith List String Ascii Bool Lia.
From Stdlib Require Import SpecFloat DecimalString.
Import ListNotations.

Open Scope string_scope.
Open Scope Z_scope.

(* ------------------------------------------------------------------ *)
(** ** Exceptions *)

Inductive exn : Type :=
| ValueError
| TypeError
| AttributeError
| OverflowError
| ZeroDivisionError
| PlaywrightError (msg : string).

Inductive result (A : Type) : Type :=
| Ok (a : A)
| Raise (e : exn).

Arguments Ok {A} a.
Arguments Raise {A} e.

Definition rbind {A B} (r : result A) (k : A -> result B) : result B :=
  match r with
  | Ok a => k a
  | Raise e => Raise e
  end.

Notation "'let?' x ':=' r 'in' k" := (rbind r (fun x => k))
  (at level 10, x name, r at level 100, k at level 200).

(* ------------------------------------------------------------------ *)
(** ** The [str] methods the scripts call *)

Module PyStr.

Definition code (c : ascii) : N := N_of_ascii c.

(** [c.isspace()] on U+0000..U+00FF: TAB..CR, FS..US, SPACE, NEL, NBSP. *)
Definition isspace (c : ascii) : bool :=
  let n := code c in
  ((9 <=? n) && (n <=? 13) || (28 <=? n) && (n <=? 32)
   || (n =? 133) || (n =? 160))%N.

Definition isdigit (c : ascii) : bool :=
  let n := code c in ((48 <=? n) && (n <=? 57))%N.

(** One character of [str.lower()]: A..Z and the Latin-1 capitals
    U+00C0..U+00DE (the multiplication sign U+00D7 apart) move up by 32. *)
Definition lower_char (c : ascii) : ascii :=
  let n := code c in
  if ((65 <=? n) && (n <=? 90)
      || (192 <=? n) && (n <=? 222) && negb (n =? 215))%N
  then ascii_of_N (n + 32) else c.

Fixpoint lower (s : string) : string :=
  match s with
  | EmptyString => EmptyString
  | String c r => String (lower_char c) (lower r)
  end.

(** [sub in s] *)
Fixpoint contains (sub s : string) : bool :=
  prefix sub s ||
  match s with
  | EmptyString => false
  | String _ r => contains sub r
  end.

Fixpoint mem (c : ascii) (s : string) : bool :=
  match s with
  | EmptyString => false
  | String d r => Ascii.eqb c d || mem c r
  end.

Fixpoint all (p : ascii -> bool) (s : string) : bool :=
  match s with
  | EmptyString => true
  | String c r => p c && all p r
  end.

Fixpoint lstrip (s : string) : string :=
  match s with
  | EmptyString => EmptyString
  | String c r => if isspace c then lstrip r else s
  end.

Fixpoint rstrip (s : string) : string :=
  match s with
  | EmptyString => EmptyString
  | String c r =>
      match rstrip r with
      | EmptyString => if isspace c then EmptyString else String c EmptyString
      | r' => String c r'
      end
  end.

(** [s.strip()] *)
Definition strip (s : string) : string := lstrip (rstrip s).

(** [s.replace(old, new)] for a non-empty [old]: the occurrences of [old]
    are replaced from left to right, without overlap.  [skip] counts the
    characters of an occurrence that are still to be dropped. *)
Fixpoint replace_from (skip : nat) (old new s : string) : string :=
  match s with
  | EmptyString => EmptyString
  | String c r =>
      match skip with
      | S k => replace_from k old new r
      | O =>
          if prefix old s
          then new ++ replace_from (Nat.pred (length old)) old new r
          else String c (replace_from O old new r)
      end
  end.

Definition replace (old new s : string) : string := replace_from O old new s.

(** What is left of [s] once every occurrence of the character [c] is
    dropped. *)
Fixpoint without (c : ascii) (s : string) : string :=
  match s with
  | EmptyString => EmptyString
  | String d r => if Ascii.eqb c d then without c r else String d (without c r)
  end.

End PyStr.

(* ------------------------------------------------------------------ *)
(** ** Python numbers: [int] and binary64 [float] *)

Module PyFloat.

Definition prec : Z := 53.
Definition emax : Z := 1024.

Definition float : Type := spec_float.

Definition zero : float := S754_zero false.
Definition nan : float := S754_nan.
Definition inf (neg : bool) : float := S754_infinity neg.

Definition add : float -> float -> float := SFadd prec emax.
Definition mul : float -> float -> float := SFmul prec emax.
Definition div : float -> float -> float := SFdiv prec emax.
Definition ltb : float -> float -> bool := SFltb.
Definition eqb : float -> float -> bool := SFeqb.

(** [bool(f)]: every float but the two zeros is true, NaN included. *)
Definition truthy (f : float) : bool :=
  match f with
  | S754_zero _ => false
  | _ => true
  end.

(** The float nearest to an integer (ties to even); an infinity when the
    integer is beyond the range. *)
Definition of_Z (z : Z) : float := binary_normalize prec emax z 0 false.

(** [float(z)] for an [int]: OverflowError where [of_Z] overflows. *)
Definition of_int (z : Z) : result float :=
  match of_Z z with
  | S754_infinity _ => Raise OverflowError
  | f => Ok f
  end.

(** The float nearest to [num / den] for positive [num] and [den], with
    the sign [neg]. *)
Definition of_ratio (neg : bool) (num den : Z) : float :=
  let '(q, e, l) := SFdiv_core_binary prec emax num 0 den 0 in
  binary_round_aux prec emax neg q e l.

(** The float nearest to [m * 10 ^ e10], for [0 <= m], with the sign
    [neg]: what a decimal literal denotes. *)
Definition of_decimal (neg : bool) (m e10 : Z) : float :=
  if m =? 0 then S754_zero neg
  else if 0 <=? e10
       then binary_normalize prec emax
              (if neg then - (m * 10 ^ e10) else m * 10 ^ e10) 0 false
       else of_ratio neg m (10 ^ (- e10)).

(** The integer a float is equal to, when it is equal to one. *)
Definition to_Z_exact (f : float) : option Z :=
  match f with
  | S754_zero _ => Some 0
  | S754_finite s m e =>
      let v :=
        if 0 <=? e then Some (Zpos m * 2 ^ e)
        else if (Zpos m mod 2 ^ (- e)) =? 0 then Some (Zpos m / 2 ^ (- e))
             else None in
      option_map (fun a => if s then - a else a) v
  | _ => None
  end.

(** [f == z] for a float and an [int]: Python compares the exact values. *)
Definition eq_int (f : float) (z : Z) : bool :=
  match to_Z_exact f with
  | Some a => a =? z
  | None => false
  end.

(** *** [float(s)] for a [str] *)

Definition digit_val (c : ascii) : Z := Z.of_N (PyStr.code c) - 48.

(** Underscores may stand between two digits only; they are dropped
    before the number is read.  [prev] is the previous character. *)
Fixpoint drop_underscores (prev : option ascii) (s : string) : option string :=
  let after_underscore :=
    match prev with
    | Some p => Ascii.eqb p "_"
    | None => false
    end in
  match s with
  | EmptyString => if after_underscore then None else Some EmptyString
  | String c r =>
      if Ascii.eqb c "_" then
        match prev with
        | Some p => if PyStr.isdigit p then drop_underscores (Some c) r else None
        | None => None
        end
      else if after_underscore && negb (PyStr.isdigit c) then None
      else option_map (String c) (drop_underscores (Some c) r)
  end.

Definition read_sign (s : string) : bool * string :=
  match s with
  | String c r =>
      if Ascii.eqb c "-" then (true, r)
      else if Ascii.eqb c "+" then (false, r)
      else (false, s)
  | EmptyString => (false, s)
  end.

(** Reads the longest run of digits at the head of [s] into the
    accumulator; returns the value, the number of digits read and the
    rest. *)
Fixpoint read_digits (acc count : Z) (s : string) : Z * Z * string :=
  match s with
  | String c r =>
      if PyStr.isdigit c
      then read_digits (10 * acc + digit_val c) (count + 1) r
      else (acc, count, s)
  | EmptyString => (acc, count, s)
  end.

Definition is_e (c : ascii) : bool := Ascii.eqb c "e" || Ascii.eqb c "E".

(** sign, digits, an optional point and digits, an optional exponent; at
    least one digit in the mantissa, and nothing may follow. *)
Definition parse_decimal (s : string) : option float :=
  let '(neg, s1) := read_sign s in
  let '(ip, ni, s2) := read_digits 0 0 s1 in
  let '(m, nf, s3) :=
    match s2 with
    | String c r => if Ascii.eqb c "." then read_digits ip 0 r else (ip, 0, s2)
    | EmptyString => (ip, 0, s2)
    end in
  if ni + nf =? 0 then None
  else
    match s3 with
    | EmptyString => Some (of_decimal neg m (- nf))
    | String c r =>
        if is_e c then
          let '(eneg, r1) := read_sign r in
          let '(ev, ne, r2) := read_digits 0 0 r1 in
          if ne =? 0 then None
          else
            match r2 with
            | EmptyString =>
                Some (of_decimal neg m ((if eneg then - ev else ev) - nf))
            | _ => None
            end
        else None
    end.

(** "inf", "infinity" and "nan" in any case, with an optional sign.  The
    letters are compared in lower case; no character outside ASCII lowers
    to an ASCII letter. *)
Definition parse_inf_or_nan (s : string) : option float :=
  let '(neg, body) := read_sign s in
  let w := PyStr.lower body in
  if String.eqb w "inf" || String.eqb w "infinity" then Some (inf neg)
  else if String.eqb w "nan" then Some nan
  else None.

(** [float(s)]: [None] stands for ValueError, the only exception the
    conversion of a [str] raises. *)
Definition of_str (s : string) : option float :=
  match drop_underscores None (PyStr.strip s) with
  | None => None
  | Some t =>
      match parse_decimal t with
      | Some f => Some f
      | None => parse_inf_or_nan t
      end
  end.

(** *** Formatting: [format(f, ".2f")] and [format(f, ",.2f")] *)

Definition digits_of (n : Z) : string :=
  NilEmpty.string_of_uint (N.to_uint (Z.to_N n)).

Fixpoint group3 (s : string) : string :=
  match s with
  | EmptyString => EmptyString
  | String c r =>
      String c
        (if (negb (Nat.eqb (length r) 0) && Nat.eqb (Nat.modulo (length r) 3) 0)%bool
         then String "," (group3 r) else group3 r)
  end.

Fixpoint repeat_char (c : ascii) (n : nat) : string :=
  match n with
  | O => EmptyString
  | S k => String c (repeat_char c k)
  end.

(** [s.rjust(w)] and [s.zfill(w)] for a string of digits *)
Definition rjust (w : nat) (s : string) : string :=
  repeat_char " " (w - length s) ++ s.
Definition zfill (w : nat) (s : string) : string :=
  repeat_char "0" (w - length s) ++ s.

(** [num / den] rounded to the nearest integer, ties to even. *)
Definition div_half_even (num den : Z) : Z :=
  let q := num / den in
  let r := num mod den in
  match 2 * r ?= den with
  | Lt => q
  | Gt => q + 1
  | Eq => if Z.even q then q else q + 1
  end.

(** The magnitude of a finite float, scaled by [10 ^ d] and rounded to an
    integer. *)
Definition scaled (d : nat) (m : positive) (e : Z) : Z :=
  if 0 <=? e then Zpos m * 2 ^ e * 10 ^ Z.of_nat d
  else div_half_even (Zpos m * 10 ^ Z.of_nat d) (2 ^ (- e)).

Definition fixed (comma : bool) (d : nat) (neg : bool) (n : Z) : string :=
  let ip := digits_of (n / 10 ^ Z.of_nat d) in
  (if neg then "-" else "")
  ++ (if comma then group3 ip else ip)
  ++ match d with
     | O => ""
     | _ => "." ++ zfill d (digits_of (n mod 10 ^ Z.of_nat d))
     end.

Definition format_f (comma : bool) (d : nat) (f : float) : string :=
  match f with
  | S754_nan => "nan"
  | S754_infinity s => if s then "-inf" else "inf"
  | S754_zero s => fixed comma d s 0
  | S754_finite s m e => fixed comma d s (scaled d m e)
  end.

(** [format(z, ">9,")] for an [int] *)
Definition format_int_comma (w : nat) (z : Z) : string :=
  rjust w ((if z <? 0 then "-" else "") ++ group3 (digits_of (Z.abs z))).

End PyFloat.

(** The integers that binary64 holds exactly: a mantissa of at most 53
    bits times a power of two, below 2^1024 in magnitude. *)
Definition exact_in_binary64 (z : Z) : Prop :=
  exists m k : Z,
    0 <= k /\ Z.abs m < 2 ^ 53 /\ z = m * 2 ^ k /\ Z.abs z < 2 ^ 1024.

(* ------------------------------------------------------------------ *)
(** ** Python values *)

(** What the extraction service hands back, and what its execution
    metadata holds: JSON-like values.  A [dict] keeps its items in
    insertion order; its keys are [str]. *)
#[warnings="-register-all"]
Inductive pyval : Type :=
| PNone
| PBool (b : bool)
| PInt (z : Z)
| PFloat (f : PyFloat.float)
| PStr (s : string)
| PList (l : list pyval)
| PDict (d : list (string * pyval)).

Definition dict : Type := list (string * pyval).

Module PyVal.

(** [key in d] *)
Fixpoint has_key (d : dict) (key : string) : bool :=
  match d with
  | [] => false
  | (k, _) :: r => String.eqb k key || has_key r key
  end.

(** [d.get(key, default)] *)
Fixpoint get (d : dict) (key : string) (default : pyval) : pyval :=
  match d with
  | [] => default
  | (k, v) :: r => if String.eqb k key then v else get r key default
  end.

(** The value [d] holds under [key], if any *)
Fixpoint lookup (d : dict) (key : string) : option pyval :=
  match d with
  | [] => None
  | (k, v) :: r => if String.eqb k key then Some v else lookup r key
  end.

(** [len(v)]: TypeError for a value without a length. *)
Definition len (v : pyval) : result nat :=
  match v with
  | PStr s => Ok (String.length s)
  | PList l => Ok (List.length l)
  | PDict d => Ok (List.length d)
  | _ => Raise TypeError
  end.

(** [v[:2]]: TypeError for a value that cannot be sliced.  For a [dict]
    this is CPython up to 3.11; from 3.12 on the slice is looked up as a
    key and the error is KeyError. *)
Definition slice2 (v : pyval) : result pyval :=
  match v with
  | PStr s => Ok (PStr (substring 0 2 s))
  | PList l => Ok (PList (firstn 2 l))
  | _ => Raise TypeError
  end.

(** [type(v)], as [print] shows it *)
Definition type_name (v : pyval) : string :=
  match v with
  | PNone => "<class 'NoneType'>"
  | PBool _ => "<class 'bool'>"
  | PInt _ => "<class 'int'>"
  | PFloat _ => "<class 'float'>"
  | PStr _ => "<class 'str'>"
  | PList _ => "<class 'list'>"
  | PDict _ => "<class 'dict'>"
  end.

Definition is_list (v : pyval) : bool :=
  match v with PList _ => true | _ => false end.

Definition is_dict (v : pyval) : bool :=
  match v with PDict _ => true | _ => false end.

(** A container object with the conventional key *)
Definition is_container (v : pyval) : bool :=
  match v with PDict d => has_key d "content" | _ => false end.

End PyVal.

(** The value of a sum of costs: [sum] starts from the [int] 0 and adds
    floats from left to right, so the sum of nothing is the [int] 0 and
    every other sum is a float. *)
Inductive num : Type :=
| NInt (z : Z)
| NFloat (f : PyFloat.float).

Module PyNum.

Definition to_float (a : num) : PyFloat.float :=
  match a with
  | NInt z => PyFloat.of_Z z
  | NFloat f => f
  end.

(** [a + f] for a float [f] *)
Definition add (a : num) (f : PyFloat.float) : num :=
  NFloat (PyFloat.add (to_float a) f).

(** [sum(xs)], as the additions from left to right.  CPython from 3.12 on
    adds floats with a compensated sum, which may differ in the last
    bits. *)
Definition sum (xs : list PyFloat.float) : num := fold_left add xs (NInt 0).

(** [a > 0] *)
Definition gt0 (a : num) : bool :=
  match a with
  | NInt z => 0 <? z
  | NFloat f => PyFloat.ltb PyFloat.zero f
  end.

(** [bool(a)] *)
Definition truthy (a : num) : bool :=
  match a with
  | NInt z => negb (z =? 0)
  | NFloat f => PyFloat.truthy f
  end.

(** [a == 0] *)
Definition is_zero (a : num) : bool :=
  match a with
  | NInt z => z =? 0
  | NFloat (S754_zero _) => true
  | NFloat _ => false
  end.

(** [a / n] for an [int] [n]: ZeroDivisionError when [n] is 0; the
    quotient of two [int]s is rounded once, and OverflowError is raised
    where a conversion or the quotient leaves the range of the floats. *)
Definition truediv (a : num) (n : Z) : result PyFloat.float :=
  if n =? 0 then Raise ZeroDivisionError
  else
    match a with
    | NFloat f => let? d := PyFloat.of_int n in Ok (PyFloat.div f d)
    | NInt z =>
        let neg := xorb (z <? 0) (n <? 0) in
        if z =? 0 then Ok (S754_zero neg)
        else
          match PyFloat.of_ratio neg (Z.abs z) (Z.abs n) with
          | S754_infinity _ => Raise OverflowError
          | q => Ok q
          end
    end.

(** [format(a, ".4f")] *)
Definition format_f (comma : bool) (d : nat) (a : num) : string :=
  PyFloat.format_f comma d (to_float a).

End PyNum.

(* ------------------------------------------------------------------ *)
(** ** What the scripts print *)

Inductive line : Type :=
| LJson (v : pyval)                       (* print(json.dumps(v, ...)) *)
| LUnexpected                             (* "Unexpected data structure ..." *)
| LRawType (t : string)                   (* "Raw data type: ..." *)
| LSummary (count total per_record : string)
| LProjectionsHeader                      (* "Cost Projections:" *)
| LProjection (quantity cost : string)    (* one estimate *)
| LUnable.                                (* "Unable to project cost ..." *)

(** The outcome of the projection section: either no projection, or the
    quotient that was computed and the lines printed from it. *)
Inductive projection : Type :=
| Unable
| Projected (cost_per_record : PyFloat.float) (printed : list line).

Definition projection_lines (p : projection) : list line :=
  match p with
  | Unable => [LUnable]
  | Projected _ ls => ls
  end.

Definition is_cost_key (k : string) : bool :=
  PyStr.contains "cost" (PyStr.lower k).

(** One estimate: [quantity * cost_per_record], with [{quantity:>9,}] and
    [{...:,.2f}]. *)
Definition estimate (cost_per_record : PyFloat.float) (quantity : Z) : line :=
  LProjection (PyFloat.format_int_comma 9 quantity)
    (PyFloat.format_f true 2 (PyFloat.mul (PyFloat.of_Z quantity) cost_per_record)).

(* ------------------------------------------------------------------ *)
(** ** code/autonation_consumer_reviews_live.py, after the extraction *)

Module Reviews.

Definition PROJECTIONS : list Z := [100; 1000; 100000; 1000000].

(** [_to_float(x)].  A [bool] is an [int], so it takes the first branch;
    [float(x)] of an [int] beyond the range raises OverflowError, which
    nothing here catches. *)
Definition _to_float (x : pyval) : result PyFloat.float :=
  match x with
  | PBool b => PyFloat.of_int (if b then 1 else 0)
  | PInt z => PyFloat.of_int z
  | PFloat f => Ok f
  | PStr s =>
      match PyFloat.of_str (PyStr.strip (PyStr.replace "$" "" s)) with
      | Some f => Ok f
      | None => Ok PyFloat.zero      (* except ValueError *)
      end
  | _ => Ok PyFloat.zero
  end.

(** The generator under [sum]: the items of one node, in order, with the
    running total. *)
Fixpoint sum_items (acc : num) (items : dict) : result num :=
  match items with
  | [] => Ok acc
  | (k, v) :: r =>
      if is_cost_key k
      then let? f := _to_float v in sum_items (PyNum.add acc f) r
      else sum_items acc r
  end.

Fixpoint sum_nodes (acc : num) (exec_info : list dict) : result num :=
  match exec_info with
  | [] => Ok acc
  | node_info :: r => let? a := sum_items acc node_info in sum_nodes a r
  end.

Definition total_cost (exec_info : list dict) : result num :=
  sum_nodes (NInt 0) exec_info.

(** The preview of the first two reviews. *)
Definition preview (reviews_data : pyval) : result (list line) :=
  match reviews_data with
  | PList l => Ok [LJson (PList (firstn 2 l))]
  | PDict d =>
      if PyVal.has_key d "content"
      then let? p := PyVal.slice2 (PyVal.get d "content" (PList [])) in
           Ok [LJson p]
      else Ok [LUnexpected; LRawType (PyVal.type_name reviews_data)]
  | _ => Ok [LUnexpected; LRawType (PyVal.type_name reviews_data)]
  end.

Definition review_list (reviews_data : pyval) : pyval :=
  match reviews_data with
  | PList l => PList l
  | PDict d => PyVal.get d "content" (PList [])
  | _ => PList []
  end.

Definition n_reviews (reviews_data : pyval) : result nat :=
  PyVal.len (review_list reviews_data).

(** What the projection section prints once the quotient is there. *)
Definition printed (n_reviews : nat) (total_cost : num)
  (cost_per_review : PyFloat.float) : list line :=
  LSummary (PyFloat.digits_of (Z.of_nat n_reviews))
           (PyNum.format_f false 4 total_cost)
           (PyFloat.format_f false 6 cost_per_review)
  :: LProjectionsHeader
  :: map (estimate cost_per_review) PROJECTIONS.

(** The projection section, from the count and the total. *)
Definition cost_projection (n_reviews : nat) (total_cost : num)
  : result projection :=
  if (0 <? Z.of_nat n_reviews) && PyNum.gt0 total_cost then
    let? cost_per_review := PyNum.truediv total_cost (Z.of_nat n_reviews) in
    Ok (Projected cost_per_review (printed n_reviews total_cost cost_per_review))
  else Ok Unable.

(** Everything the script prints once the result is saved. *)
Definition report (reviews_data : pyval) (exec_info : list dict)
  : result (list line) :=
  let? shown := preview reviews_data in
  let? total := total_cost exec_info in
  let? n := n_reviews reviews_data in
  let? p := cost_projection n total in
  Ok (shown ++ projection_lines p)%list.

End Reviews.

(* ------------------------------------------------------------------ *)
(** ** code/autonation_live_scrape_minimal.py, after the extraction *)

Module Minimal.

Definition projection_sizes : list Z := [100; 1000; 100000; 1000000].

(** [float(str(v).replace("$", "").strip())], 0.0 on ValueError.
    For a [str], [str(v)] is [v].  For a float, [str(v)] is its shortest
    repr, which [float] reads back as the same float.  For an [int] it is
    its decimal digits, read back as the nearest float (an infinity beyond
    the range; where CPython limits [str] of an [int] to 4300 digits, a
    longer one raises ValueError and gives 0.0 instead).  "True", "False", "None" and the bracketed text of a list
    or dict are no numbers. *)
Definition coerce (v : pyval) : PyFloat.float :=
  match v with
  | PStr s =>
      match PyFloat.of_str (PyStr.strip (PyStr.replace "$" "" s)) with
      | Some f => f
      | None => PyFloat.zero
      end
  | PFloat f => f
  | PInt z => PyFloat.of_Z z
  | _ => PyFloat.zero
  end.

(** [extract_node_cost(node)]: returns at the first key that contains
    "cost". *)
Fixpoint extract_node_cost (node : dict) : PyFloat.float :=
  match node with
  | [] => PyFloat.zero
  | (k, v) :: r => if is_cost_key k then coerce v else extract_node_cost r
  end.

Definition total_cost (exec_info_list : list dict) : num :=
  PyNum.sum (map extract_node_cost exec_info_list).

(** [result if isinstance(result, list) else result.get("content", [])] *)
Definition cars (result_ : pyval) : result pyval :=
  match result_ with
  | PList l => Ok (PList l)
  | PDict d => Ok (PyVal.get d "content" (PList []))
  | _ => Raise AttributeError
  end.

Definition cars_in_run (result_ : pyval) : result nat :=
  let? c := cars result_ in PyVal.len c.

Definition printed (cars_in_run : nat) (total_cost : num)
  (cost_per_car : PyFloat.float) : list line :=
  LSummary (PyFloat.digits_of (Z.of_nat cars_in_run))
           (PyNum.format_f false 4 total_cost)
           (PyFloat.format_f false 6 cost_per_car)
  :: map (estimate cost_per_car) projection_sizes.

Definition cost_projection (cars_in_run : nat) (total_cost : num)
  : result projection :=
  if negb (Z.of_nat cars_in_run =? 0) && PyNum.truthy total_cost then
    let? cost_per_car := PyNum.truediv total_cost (Z.of_nat cars_in_run) in
    Ok (Projected cost_per_car (printed cars_in_run total_cost cost_per_car))
  else Ok Unable.

Definition report (result_ : pyval) (exec_info_list : list dict)
  : result (list line) :=
  let total := total_cost exec_info_list in
  let? n := cars_in_run result_ in
  let? p := cost_projection n total in
  Ok (LJson result_ :: projection_lines p).

End Minimal.

(* ------------------------------------------------------------------ *)
(** ** The Playwright session *)

Module Playwright.

(** The calls the scripts make on the browser-automation library and on
    the file system, by kind. *)
Inductive call : Type :=
| Start              (* sync_playwright().__enter__() *)
| Launch             (* p.chromium.launch(...) *)
| NewContext         (* browser.new_context(...) *)
| NewPage            (* new_page(...) *)
| Goto               (* page.goto(url, timeout=60_000) *)
| WaitForSelector    (* page.wait_for_selector(...) *)
| Evaluate           (* page.evaluate("window.scrollTo(...)") *)
| QuerySelector      (* page.query_selector('button:has-text("Load more")') *)
| Click              (* load_more.click() *)
| WaitForTimeout     (* page.wait_for_timeout(1500) *)
| PressEnd           (* page.keyboard.press("End") *)
| Sleep              (* time.sleep(...) *)
| Content            (* page.content() *)
| MakeDirs           (* os.makedirs(...) *)
| WriteFile          (* open(...) and f.write(html) *)
| BrowserClose       (* browser.close() *)
| Stop.              (* sync_playwright().__exit__(...) *)

Definition call_eqb (a b : call) : bool :=
  match a, b with
  | Start, Start | Launch, Launch | NewContext, NewContext
  | NewPage, NewPage | Goto, Goto | WaitForSelector, WaitForSelector
  | Evaluate, Evaluate | QuerySelector, QuerySelector | Click, Click
  | WaitForTimeout, WaitForTimeout | PressEnd, PressEnd | Sleep, Sleep
  | Content, Content | MakeDirs, MakeDirs | WriteFile, WriteFile
  | BrowserClose, BrowserClose | Stop, Stop => true
  | _, _ => false
  end.

(** The environment: the browser, the site and the disk.  It decides,
    for the k-th call of each kind, whether the call raises; for the k-th
    lookup, whether the "Load more" button is found; and what the k-th
    [page.content()] returns. *)
Record env : Type := {
  raises : call -> nat -> option exn;
  load_more : nat -> bool;
  html : nat -> string
}.

(** The calls made so far, the latest first, and what is alive: the
    Playwright driver, started by the [with] statement, and the browser
    it launched. *)
Record state : Type := {
  trace : list call;
  driver_running : bool;
  browser_open : bool
}.

Definition init : state :=
  {| trace := []; driver_running := false; browser_open := false |}.

Fixpoint count (c : call) (t : list call) : nat :=
  match t with
  | [] => O
  | d :: r => if call_eqb c d then S (count c r) else count c r
  end.

(** The session is released when neither the driver nor a browser is
    left. *)
Definition released (st : state) : bool :=
  negb (driver_running st) && negb (browser_open st).

(** A run returns, raises, or is still looping when the fuel is spent. *)
Inductive outcome (A : Type) : Type :=
| Returns (a : A)
| Throws (e : exn)
| Looping.

Arguments Returns {A} a.
Arguments Throws {A} e.
Arguments Looping {A}.

Definition M (A : Type) : Type := state -> outcome A * state.

(** A computation that never runs out of fuel, whatever the state *)
Definition finishes {A} (m : M A) : Prop := forall st, fst (m st) <> Looping.

Definition ret {A} (a : A) : M A := fun st => (Returns a, st).

Definition bind {A B} (m : M A) (k : A -> M B) : M B :=
  fun st =>
    match m st with
    | (Returns a, st1) => k a st1
    | (Throws e, st1) => (Throws e, st1)
    | (Looping, st1) => (Looping, st1)
    end.

Definition throw {A} (e : exn) : M A := fun st => (Throws e, st).

(** [try: m except Exception as e: h e] *)
Definition try_except {A} (m : M A) (h : exn -> M A) : M A :=
  fun st =>
    match m st with
    | (Throws e, st1) => h e st1
    | r => r
    end.

(** What a call that went through changes. *)
Definition effect (c : call) (st : state) : state :=
  match c with
  | Start =>
      {| trace := trace st; driver_running := true;
         browser_open := browser_open st |}
  | Launch =>
      {| trace := trace st; driver_running := driver_running st;
         browser_open := true |}
  | BrowserClose =>
      {| trace := trace st; driver_running := driver_running st;
         browser_open := false |}
  | Stop =>
      (* stopping the driver ends the browsers it launched *)
      {| trace := trace st; driver_running := false; browser_open := false |}
  | _ => st
  end.

Definition record (c : call) (st : state) : state :=
  {| trace := c :: trace st; driver_running := driver_running st;
     browser_open := browser_open st |}.

Section Run.

Variable E : env.

(** The k-th call of kind [c], where k calls of that kind came
    before. *)
Definition perform (c : call) : M nat :=
  fun st =>
    let k := count c (trace st) in
    match raises E c k with
    | Some e => (Throws e, record c st)
    | None => (Returns k, effect c (record c st))
    end.

Definition do_ (c : call) : M unit := bind (perform c) (fun _ => ret tt).

(** [page.query_selector(...)]: whether a handle came back *)
Definition query_selector : M bool :=
  bind (perform QuerySelector) (fun k => ret (load_more E k)).

(** [page.content()] *)
Definition content : M string :=
  bind (perform Content) (fun k => ret (html E k)).

(** [with sync_playwright() as p: body].  The exit runs when the body
    returns and when it raises, and lets the exception through. *)
Definition with_sync_playwright {A} (body : M A) : M A :=
  fun st =>
    match perform Start st with
    | (Returns _, st1) =>
        match body st1 with
        | (Looping, st2) => (Looping, st2)
        | (r, st2) => (r, effect Stop (record Stop st2))
        end
    | (Throws e, st1) => (Throws e, st1)
    | (Looping, st1) => (Looping, st1)
    end.

End Run.

End Playwright.

Notation "x <- m ;; k" := (Playwright.bind m (fun x => k))
  (at level 61, m at next level, right associativity).
Notation "m ;;; k" := (Playwright.bind m (fun _ => k))
  (at level 61, right associativity).

(** *** code/autonation_consumer_reviews_live.py: [render_full_page] *)

Module ReviewsPage.

Import Playwright.

Section Run.

Variable E : env.

(** The body of the loop once the button is found. *)
Definition load_more_round : M unit :=
  do_ E Click ;;;
  do_ E WaitForTimeout ;;;
  do_ E PressEnd.

(** [while True: ...]: [fuel] bounds the number of lookups. *)
Fixpoint polling_loop (fuel : nat) : M unit :=
  match fuel with
  | O => fun st => (Looping, st)
  | S f =>
      found <- query_selector E ;;
      if found then load_more_round ;;; polling_loop f
      else ret tt                       (* break *)
  end.

Definition render_full_page (fuel : nat) : M string :=
  with_sync_playwright E
    (do_ E Launch ;;;
     do_ E NewPage ;;;
     do_ E Goto ;;;
     polling_loop fuel ;;;
     do_ E PressEnd ;;;
     do_ E Sleep ;;;
     h <- content E ;;
     do_ E MakeDirs ;;;
     do_ E WriteFile ;;;
     do_ E BrowserClose ;;;
     ret h).

End Run.

End ReviewsPage.

(** *** code/autonation_live_scrape.py: [fetch_rendered_html] *)

Module LiveScrape.

Import Playwright.

Section Run.

Variable E : env.

Definition fetch_rendered_html : M string :=
  with_sync_playwright E
    (do_ E Launch ;;;
     do_ E NewContext ;;;
     do_ E NewPage ;;;
     do_ E Goto ;;;
     try_except (do_ E WaitForSelector) (fun e => throw e) ;;;
     do_ E Evaluate ;;;
     do_ E Sleep ;;;
     h <- content E ;;
     do_ E BrowserClose ;;;
     ret h).

End Run.

End LiveScrape.

(* ------------------------------------------------------------------ *)
(** ** The total cost as the specification words it *)

Module CostSpec.

(** The values of the fields whose key contains "cost", over every node
    and every field, in order. *)
Definition cost_fields (exec_info : list dict) : list pyval :=
  flat_map (fun node_info =>
              map snd (filter (fun kv => is_cost_key (fst kv)) node_info))
           exec_info.

Fixpoint coerce_all (vs : list pyval) : result (list PyFloat.float) :=
  match vs with
  | [] => Ok []
  | v :: r =>
      let? f := Reviews._to_float v in
      let? fs := coerce_all r in
      Ok (f :: fs)
  end.

(** The sum of the coerced values of all of them. *)
Definition sum_of_cost_fields (exec_info : list dict) : result num :=
  let? fs := coerce_all (cost_fields exec_info) in Ok (PyNum.sum fs).

End CostSpec.

(* ------------------------------------------------------------------ *)
(** ** Sample inputs *)

(** A node that reports two costs. *)
Definition two_cost_fields : dict :=
  [("prompt_cost", PFloat (PyFloat.of_Z 1));
   ("completion_cost", PFloat (PyFloat.of_Z 2))].

Definition minus_one : PyFloat.float := PyFloat.of_Z (-1).

(** A page whose button is always there, and whose second click fails. *)
Definition click_fails_second_time : Playwright.env :=
  {| Playwright.raises := fun c k =>
       match c with
       | Playwright.Click =>
           if Nat.eqb k 1 then Some (PlaywrightError "detached") else None
       | _ => None
       end;
     Playwright.load_more := fun _ => true;
     Playwright.html := fun _ => "<html></html>" |}.

(** A page with two more batches of reviews, and no failure. *)
Definition two_more_pages : Playwright.env :=
  {| Playwright.raises := fun _ _ => None;
     Playwright.load_more := fun k => Nat.ltb k 2;
     Playwright.html := fun _ => "<html></html>" |}.

(* ------------------------------------------------------------------ *)
(** ** Shapes of the execution metadata and of the results *)

Module CostShape.

(** The items of a node whose key contains "cost". *)
Definition cost_items (node : dict) : dict :=
  filter (fun kv => is_cost_key (fst kv)) node.

Definition is_str_or_float (v : pyval) : bool :=
  match v with
  | PStr _ | PFloat _ => true
  | _ => false
  end.

(** A node with exactly one cost-bearing field, holding a string or a
    float: what the extraction service reports for a step. *)
Definition single_plain_cost (node : dict) : bool :=
  match cost_items node with
  | [(_, v)] => is_str_or_float v
  | _ => false
  end.

(** The values that are no sequence and no mapping. *)
Definition is_scalar (v : pyval) : bool :=
  match v with
  | PNone | PBool _ | PInt _ | PFloat _ => true
  | _ => false
  end.

End CostShape.

(** *** code/autonation_live_scrape_minimal.py: [fetch_rendered_html] *)

Module MinimalPage.

Import Playwright.

Section Run.

Variable E : env.

Definition fetch_rendered_html : M string :=
  with_sync_playwright E
    (do_ E Launch ;;;
     do_ E NewPage ;;;
     do_ E Goto ;;;
     do_ E Sleep ;;;
     do_ E Evaluate ;;;
     do_ E Sleep ;;;
     h <- content E ;;
     do_ E MakeDirs ;;;
     do_ E WriteFile ;;;
     do_ E BrowserClose ;;;
     ret h).

End Run.

End MinimalPage.

(* ------------------------------------------------------------------ *)
(** ** Traces of the session *)

Module Footprint.

Import Playwright.

(** The calls of one round of the polling loop, the latest first. *)
Definition round : list call := [PressEnd; WaitForTimeout; Click; QuerySelector].

Definition rounds (n : nat) : list call := List.concat (repeat round n).

(** A computation whose calls are all of an allowed kind. *)
Definition only_calls {A} (allowed : call -> bool) (m : M A) : Prop :=
  forall st r st',
    m st = (r, st') ->
    exists added, trace st' = (added ++ trace st)%list
                  /\ forallb allowed added = true.

Definition is_disk_call (c : call) : bool :=
  match c with
  | MakeDirs | WriteFile => true
  | _ => false
  end.

(** A page that always shows the button, in an environment where nothing
    fails. *)
Definition always_more : env :=
  {| raises := fun _ _ => None;
     load_more := fun _ => true;
     html := fun _ => "<html></html>"%string |}.

(** No call fails. *)
Definition quiet (E : env) : Prop := forall c k, raises E c k = None.


End Footprint.

(* ================================================================== *)
(** * Properties *)

(** ** Strings *)

Lemma prefix_dollar c r : prefix "$" (String c r) = Ascii.eqb "$" c.
Proof.
  change (prefix "$" (String c r))
    with (if ascii_dec "$" c then prefix "" r else false).
  destruct (ascii_dec "$" c) as [e|n].
  - subst c. destruct r; reflexivity.
  - symmetry. apply Ascii.eqb_neq. exact n.
Qed.

Ltac step := cbn [PyStr.mem PyStr.all PyStr.without PyStr.lstrip PyStr.rstrip append].

Lemma replace_dollar_without s : PyStr.replace "$" "" s = PyStr.without "$" s.
Proof.
  unfold PyStr.replace.
  induction s as [|c r IH].
  - reflexivity.
  - cbn [PyStr.replace_from PyStr.without]. rewrite prefix_dollar.
    destruct (Ascii.eqb "$" c).
    + change (Nat.pred (length "$")) with O. cbn [append]. exact IH.
    + rewrite IH. reflexivity.
Qed.

Lemma mem_without c s : PyStr.mem c (PyStr.without c s) = false.
Proof.
  induction s as [|d r IH]; step; [reflexivity|].
  destruct (Ascii.eqb c d) eqn:E; step; [exact IH|].
  rewrite E. exact IH.
Qed.

Lemma without_app c a b :
  PyStr.without c (a ++ b) = PyStr.without c a ++ PyStr.without c b.
Proof.
  induction a as [|d r IH]; step; [reflexivity|].
  destruct (Ascii.eqb c d); step; rewrite IH; reflexivity.
Qed.

Lemma without_id c s : PyStr.mem c s = false -> PyStr.without c s = s.
Proof.
  induction s as [|d r IH]; step; [reflexivity|].
  destruct (Ascii.eqb c d); step; [discriminate|].
  intros H. rewrite IH by exact H. reflexivity.
Qed.

Lemma spaces_no_dollar s : PyStr.all PyStr.isspace s = true -> PyStr.mem "$" s = false.
Proof.
  induction s as [|d r IH]; step; [reflexivity|].
  intros H. apply andb_true_iff in H. destruct H as [Hd Hr].
  rewrite (IH Hr), orb_false_r.
  apply Ascii.eqb_neq. intros <-. discriminate Hd.
Qed.

Lemma app_assoc_s (a b c : string) : (a ++ b) ++ c = a ++ b ++ c.
Proof. induction a as [|d r IH]; step; [reflexivity|]. rewrite IH. reflexivity. Qed.

Lemma lstrip_spaces l s : PyStr.all PyStr.isspace l = true -> PyStr.lstrip (l ++ s) = PyStr.lstrip s.
Proof.
  induction l as [|d r IH]; step; [reflexivity|].
  intros H. apply andb_true_iff in H. destruct H as [Hd Hr].
  rewrite Hd. apply IH. exact Hr.
Qed.

Lemma rstrip_all_spaces r : PyStr.all PyStr.isspace r = true -> PyStr.rstrip r = "".
Proof.
  induction r as [|d r IH]; step; [reflexivity|].
  intros H. apply andb_true_iff in H. destruct H as [Hd Hr].
  rewrite (IH Hr), Hd. reflexivity.
Qed.

Lemma rstrip_spaces s r : PyStr.all PyStr.isspace r = true -> PyStr.rstrip (s ++ r) = PyStr.rstrip s.
Proof.
  intros H. induction s as [|d t IH]; step.
  - apply rstrip_all_spaces. exact H.
  - rewrite IH. reflexivity.
Qed.

Lemma rstrip_idem s : PyStr.rstrip (PyStr.rstrip s) = PyStr.rstrip s.
Proof.
  induction s as [|c r IH]; step; [reflexivity|].
  destruct (PyStr.rstrip r) as [|c' r'] eqn:E.
  - destruct (PyStr.isspace c) eqn:Hc; step; [reflexivity|]. rewrite Hc. reflexivity.
  - cbn [PyStr.rstrip]. cbn [PyStr.rstrip] in IH. rewrite IH. reflexivity.
Qed.

Lemma lstrip_idem s : PyStr.lstrip (PyStr.lstrip s) = PyStr.lstrip s.
Proof.
  induction s as [|c r IH]; step; [reflexivity|].
  destruct (PyStr.isspace c) eqn:Hc; [exact IH|]. step. rewrite Hc. reflexivity.
Qed.

Lemma rstrip_lstrip_fixed z : PyStr.rstrip z = z -> PyStr.rstrip (PyStr.lstrip z) = PyStr.lstrip z.
Proof.
  induction z as [|c r IH]; [reflexivity|].
  intros H. cbn [PyStr.lstrip].
  destruct (PyStr.isspace c) eqn:Hc; [|exact H].
  apply IH. cbn [PyStr.rstrip] in H.
  destruct (PyStr.rstrip r) as [|c' r'] eqn:E.
  - rewrite Hc in H. discriminate H.
  - injection H as H. exact H.
Qed.

Lemma strip_idem s : PyStr.strip (PyStr.strip s) = PyStr.strip s.
Proof.
  unfold PyStr.strip.
  rewrite (rstrip_lstrip_fixed (PyStr.rstrip s) (rstrip_idem s)).
  apply lstrip_idem.
Qed.

Lemma lstrip_rstrip_spaces l s :
  PyStr.all PyStr.isspace l = true ->
  PyStr.lstrip (PyStr.rstrip (l ++ s)) = PyStr.lstrip (PyStr.rstrip s).
Proof.
  intros H. induction l as [|d r IH]; [reflexivity|].
  cbn [PyStr.all PyStr.mem] in H. apply andb_true_iff in H. destruct H as [Hd Hr].
  specialize (IH Hr).
  cbn [append PyStr.rstrip].
  destruct (PyStr.rstrip (r ++ s)) as [|c' r'] eqn:E.
  - rewrite Hd. exact IH.
  - cbn [PyStr.lstrip]. rewrite Hd. exact IH.
Qed.

Lemma strip_surrounded l s r :
  PyStr.all PyStr.isspace l = true -> PyStr.all PyStr.isspace r = true ->
  PyStr.strip (l ++ s ++ r) = PyStr.strip s.
Proof.
  intros Hl Hr. unfold PyStr.strip.
  rewrite lstrip_rstrip_spaces by exact Hl.
  rewrite rstrip_spaces by exact Hr. reflexivity.
Qed.

Lemma of_str_strip s : PyFloat.of_str (PyStr.strip s) = PyFloat.of_str s.
Proof. unfold PyFloat.of_str. rewrite strip_idem. reflexivity. Qed.

(** ** The parser refuses a dollar sign *)

(** A character that passes one of the parser's tests is not "$". *)
Lemma not_dollar (p : ascii -> bool) c :
  p "$"%char = false -> p c = true -> Ascii.eqb "$" c = false.
Proof.
  intros Hp Hc. apply Ascii.eqb_neq. intros <-. rewrite Hp in Hc. discriminate.
Qed.

Lemma mem_dollar_cons p c r :
  p "$"%char = false -> p c = true ->
  PyStr.mem "$" (String c r) = true -> PyStr.mem "$" r = true.
Proof.
  intros Hp Hc. cbn [PyStr.mem]. rewrite (not_dollar p c Hp Hc). trivial.
Qed.

Lemma mem_lstrip s : PyStr.mem "$" s = true -> PyStr.mem "$" (PyStr.lstrip s) = true.
Proof.
  induction s as [|c r IH]; [trivial|].
  intros H. cbn [PyStr.lstrip]. destruct (PyStr.isspace c) eqn:Hc; [|exact H].
  apply IH. exact (mem_dollar_cons PyStr.isspace c r eq_refl Hc H).
Qed.

Lemma mem_rstrip s : PyStr.mem "$" s = true -> PyStr.mem "$" (PyStr.rstrip s) = true.
Proof.
  induction s as [|c r IH]; [trivial|].
  intros H. cbn [PyStr.rstrip]. cbn [PyStr.mem] in H.
  destruct (Ascii.eqb "$" c) eqn:Ec.
  - apply Ascii.eqb_eq in Ec. subst c.
    destruct (PyStr.rstrip r); reflexivity.
  - cbn [orb] in H. specialize (IH H).
    destruct (PyStr.rstrip r) as [|c' r'].
    + discriminate IH.
    + cbn [PyStr.mem]. cbn [PyStr.mem] in IH. rewrite IH. apply orb_true_r.
Qed.

Lemma mem_strip s : PyStr.mem "$" s = true -> PyStr.mem "$" (PyStr.strip s) = true.
Proof. intros H. apply mem_lstrip, mem_rstrip, H. Qed.

Lemma mem_drop_underscores s : forall prev t,
  PyFloat.drop_underscores prev s = Some t ->
  PyStr.mem "$" s = true -> PyStr.mem "$" t = true.
Proof.
  induction s as [|c r IH]; intros prev t Ht Hs; [discriminate Hs|].
  cbn [PyFloat.drop_underscores] in Ht.
  destruct (Ascii.eqb c "_") eqn:Ec.
  - apply Ascii.eqb_eq in Ec. subst c.
    destruct prev as [p|]; [|discriminate Ht].
    destruct (PyStr.isdigit p); [|discriminate Ht].
    exact (IH _ _ Ht Hs).
  - destruct (_ && _); [discriminate Ht|].
    destruct (PyFloat.drop_underscores (Some c) r) as [t'|] eqn:Et; [|discriminate Ht].
    injection Ht as <-. cbn [PyStr.mem] in *.
    destruct (Ascii.eqb "$" c); [reflexivity|].
    exact (IH _ _ Et Hs).
Qed.

Lemma mem_read_sign s :
  PyStr.mem "$" s = true -> PyStr.mem "$" (snd (PyFloat.read_sign s)) = true.
Proof.
  destruct s as [|c r]; [trivial|]. intros H. unfold PyFloat.read_sign.
  destruct (Ascii.eqb c "-") eqn:E1.
  - apply Ascii.eqb_eq in E1. subst c. exact H.
  - destruct (Ascii.eqb c "+") eqn:E2; [|exact H].
    apply Ascii.eqb_eq in E2. subst c. exact H.
Qed.

Lemma mem_read_digits s : forall acc n,
  PyStr.mem "$" s = true ->
  PyStr.mem "$" (snd (PyFloat.read_digits acc n s)) = true.
Proof.
  induction s as [|c r IH]; intros acc n H; [discriminate H|].
  cbn [PyFloat.read_digits]. destruct (PyStr.isdigit c) eqn:Hc; [|exact H].
  apply IH. exact (mem_dollar_cons PyStr.isdigit c r eq_refl Hc H).
Qed.

Lemma parse_decimal_dollar t : PyStr.mem "$" t = true -> PyFloat.parse_decimal t = None.
Proof.
  intros H. unfold PyFloat.parse_decimal.
  pose proof (mem_read_sign t H) as H1.
  destruct (PyFloat.read_sign t) as [neg s1]. cbn [snd] in H1.
  pose proof (mem_read_digits s1 0 0 H1) as H2.
  destruct (PyFloat.read_digits 0 0 s1) as [[ip ni] s2]. cbn [snd] in H2.
  assert (H3 : PyStr.mem "$"
                 (snd match s2 with
                      | String c r =>
                          if Ascii.eqb c "." then PyFloat.read_digits ip 0 r
                          else (ip, 0, s2)
                      | EmptyString => (ip, 0, s2)
                      end) = true).
  { destruct s2 as [|c r]; [exact H2|].
    destruct (Ascii.eqb c ".") eqn:Ec; [|exact H2].
    apply Ascii.eqb_eq in Ec. subst c. apply mem_read_digits. exact H2. }
  destruct (match s2 with EmptyString => _ | String _ _ => _ end) as [[m nf] s3].
  cbn [snd] in H3.
  destruct (ni + nf =? 0); [reflexivity|].
  destruct s3 as [|c r]; [discriminate H3|].
  destruct (PyFloat.is_e c) eqn:He; [|reflexivity].
  assert (Hr : PyStr.mem "$" r = true).
  { exact (mem_dollar_cons PyFloat.is_e c r eq_refl He H3). }
  pose proof (mem_read_sign r Hr) as H4.
  destruct (PyFloat.read_sign r) as [eneg r1]. cbn [snd] in H4.
  pose proof (mem_read_digits r1 0 0 H4) as H5.
  destruct (PyFloat.read_digits 0 0 r1) as [[ev ne] r2]. cbn [snd] in H5.
  destruct (ne =? 0); [reflexivity|].
  destruct r2; [discriminate H5|reflexivity].
Qed.

Lemma mem_lower s : PyStr.mem "$" s = true -> PyStr.mem "$" (PyStr.lower s) = true.
Proof.
  induction s as [|c r IH]; [trivial|]. cbn [PyStr.mem PyStr.lower].
  destruct (Ascii.eqb "$" c) eqn:Ec.
  - apply Ascii.eqb_eq in Ec. subst c. reflexivity.
  - cbn [orb]. intros H. rewrite (IH H). apply orb_true_r.
Qed.

Lemma eqb_dollar_free s w :
  PyStr.mem "$" s = true -> PyStr.mem "$" w = false -> String.eqb s w = false.
Proof.
  intros Hs Hw. destruct (String.eqb s w) eqn:E; [|reflexivity].
  apply String.eqb_eq in E. subst w. rewrite Hs in Hw. discriminate.
Qed.

Lemma parse_inf_or_nan_dollar t :
  PyStr.mem "$" t = true -> PyFloat.parse_inf_or_nan t = None.
Proof.
  intros H. unfold PyFloat.parse_inf_or_nan.
  pose proof (mem_read_sign t H) as H1.
  destruct (PyFloat.read_sign t) as [neg body]. cbn [snd] in H1.
  apply mem_lower in H1.
  rewrite !(eqb_dollar_free _ _ H1) by reflexivity. reflexivity.
Qed.

(** No string with a dollar sign in it is a number. *)
Lemma of_str_dollar s : PyStr.mem "$" s = true -> PyFloat.of_str s = None.
Proof.
  intros H. unfold PyFloat.of_str.
  destruct (PyFloat.drop_underscores None (PyStr.strip s)) as [t|] eqn:Et; [|reflexivity].
  pose proof (mem_drop_underscores _ _ _ Et (mem_strip s H)) as Ht.
  rewrite (parse_decimal_dollar t Ht). apply parse_inf_or_nan_dollar. exact Ht.
Qed.

Lemma number_no_dollar s f : PyFloat.of_str s = Some f -> PyStr.mem "$" s = false.
Proof.
  intros H. destruct (PyStr.mem "$" s) eqn:E; [|reflexivity].
  rewrite (of_str_dollar s E) in H. discriminate.
Qed.

(** ** The coercion of cost strings *)

Lemma to_float_str s :
  Reviews._to_float (PStr s)
  = Ok (match PyFloat.of_str (PyStr.without "$" s) with
        | Some f => f
        | None => PyFloat.zero
        end).
Proof.
  cbn [Reviews._to_float].
  rewrite replace_dollar_without, of_str_strip.
  destruct (PyFloat.of_str _); reflexivity.
Qed.

Lemma coerce_str s :
  Minimal.coerce (PStr s)
  = match PyFloat.of_str (PyStr.without "$" s) with
    | Some f => f
    | None => PyFloat.zero
    end.
Proof.
  cbn [Minimal.coerce].
  rewrite replace_dollar_without, of_str_strip. reflexivity.
Qed.

Lemma of_str_surrounded l s r :
  PyStr.all PyStr.isspace l = true -> PyStr.all PyStr.isspace r = true ->
  PyFloat.of_str (l ++ s ++ r) = PyFloat.of_str s.
Proof.
  intros Hl Hr. unfold PyFloat.of_str. rewrite strip_surrounded by assumption.
  reflexivity.
Qed.

Lemma without_dollar_form l num r f :
  PyStr.all PyStr.isspace l = true -> PyStr.all PyStr.isspace r = true ->
  PyFloat.of_str num = Some f ->
  PyStr.without "$" (l ++ "$" ++ num ++ r) = l ++ num ++ r.
Proof.
  intros Hl Hr Hn.
  rewrite !without_app.
  rewrite (without_id "$" l (spaces_no_dollar l Hl)).
  rewrite (without_id "$" r (spaces_no_dollar r Hr)).
  rewrite (without_id "$" num (number_no_dollar num f Hn)).
  reflexivity.
Qed.

(** C7: a cost string of the form "$<number>", with any whitespace around
    it, is coerced to the float the number denotes; a string that is not a
    number once its currency symbols and the surrounding whitespace are
    stripped is coerced to 0.0.  Both scripts agree on strings. *)
Theorem to_float_dollar_number :
  (forall (l r num : string) (f : PyFloat.float),
      PyStr.all PyStr.isspace l = true ->
      PyStr.all PyStr.isspace r = true ->
      PyFloat.of_str num = Some f ->
      Reviews._to_float (PStr (l ++ "$" ++ num ++ r)) = Ok f
      /\ Minimal.coerce (PStr (l ++ "$" ++ num ++ r)) = f)
  /\ (forall s : string,
         PyFloat.of_str (PyStr.without "$" s) = None ->
         Reviews._to_float (PStr s) = Ok PyFloat.zero
         /\ Minimal.coerce (PStr s) = PyFloat.zero).
Proof.
  split.
  - intros l r num f Hl Hr Hn.
    rewrite to_float_str, coerce_str.
    rewrite (without_dollar_form l num r f Hl Hr Hn).
    rewrite (of_str_surrounded l num r Hl Hr), Hn. split; reflexivity.
  - intros s Hs. rewrite to_float_str, coerce_str, Hs. split; reflexivity.
Qed.

Lemma to_float_dollar_number_witness :
  Reviews._to_float (PStr "  $0.123 ")
  = Ok (S754_finite false 8863084066665136 (-56)).
Proof.
  exact (proj1 (proj1 to_float_dollar_number "  " " " "0.123"
                  (S754_finite false 8863084066665136 (-56))
                  eq_refl eq_refl eq_refl)).
Defined.

(** C10: the coercion removes every "$" of the string, wherever it stands,
    before it strips the whitespace and reads the number: a "$" between
    two parts of a string makes no difference to the result, and "1$5",
    which is no number, is coerced to 15.0. *)
Theorem to_float_drops_every_dollar :
  (forall s : string,
      PyStr.replace "$" "" s = PyStr.without "$" s
      /\ PyStr.mem "$" (PyStr.replace "$" "" s) = false)
  /\ (forall a b : string,
         Reviews._to_float (PStr (a ++ "$" ++ b)) = Reviews._to_float (PStr (a ++ b))
         /\ Minimal.coerce (PStr (a ++ "$" ++ b)) = Minimal.coerce (PStr (a ++ b)))
  /\ PyFloat.of_str "1$5" = None
  /\ Reviews._to_float (PStr "1$5") = Ok (PyFloat.of_Z 15)
  /\ Minimal.coerce (PStr "1$5") = PyFloat.of_Z 15.
Proof.
  split; [|split; [|split; [|split]]].
  - intros s. rewrite replace_dollar_without. split; [reflexivity|apply mem_without].
  - intros a b. rewrite !to_float_str, !coerce_str.
    rewrite !without_app. split; reflexivity.
  - reflexivity.
  - reflexivity.
  - reflexivity.
Qed.

(** ** Totals, record counts and the projection *)

Lemma coerce_all_app a b :
  CostSpec.coerce_all (a ++ b)
  = let? x := CostSpec.coerce_all a in
    let? y := CostSpec.coerce_all b in Ok (x ++ y)%list.
Proof.
  induction a as [|v r IH]; cbn [CostSpec.coerce_all app rbind].
  - destruct (CostSpec.coerce_all b); reflexivity.
  - destruct (Reviews._to_float v) as [f|e]; cbn [rbind]; [|reflexivity].
    rewrite IH. destruct (CostSpec.coerce_all r) as [x|e]; cbn [rbind]; [|reflexivity].
    destruct (CostSpec.coerce_all b); reflexivity.
Qed.

Lemma sum_items_spec items : forall acc,
  Reviews.sum_items acc items
  = let? fs := CostSpec.coerce_all
                 (map snd (filter (fun kv => is_cost_key (fst kv)) items)) in
    Ok (fold_left PyNum.add fs acc).
Proof.
  induction items as [|[k v] r IH]; intros acc; [reflexivity|].
  cbn [Reviews.sum_items filter fst].
  destruct (is_cost_key k).
  - cbn [map snd CostSpec.coerce_all].
    destruct (Reviews._to_float v) as [f|e]; cbn [rbind]; [|reflexivity].
    rewrite IH. destruct (CostSpec.coerce_all _); reflexivity.
  - apply IH.
Qed.

Lemma sum_nodes_spec exec_info : forall acc,
  Reviews.sum_nodes acc exec_info
  = let? fs := CostSpec.coerce_all (CostSpec.cost_fields exec_info) in
    Ok (fold_left PyNum.add fs acc).
Proof.
  induction exec_info as [|node r IH]; intros acc; [reflexivity|].
  cbn [Reviews.sum_nodes CostSpec.cost_fields flat_map].
  rewrite sum_items_spec, coerce_all_app.
  destruct (CostSpec.coerce_all (map snd _)) as [x|e]; cbn [rbind]; [|reflexivity].
  rewrite IH. fold (CostSpec.cost_fields r).
  destruct (CostSpec.coerce_all (CostSpec.cost_fields r)) as [y|e]; cbn [rbind];
    [|reflexivity].
  rewrite fold_left_app. reflexivity.
Qed.

(** In the reviews script every cost-bearing field of every node
    contributes. *)
Lemma reviews_total_cost_sums_every_cost_field exec_info :
  Reviews.total_cost exec_info = CostSpec.sum_of_cost_fields exec_info.
Proof. apply sum_nodes_spec. Qed.

(** C1: on a node that carries two cost-bearing fields, 1.0 and 2.0, the
    sum over every cost-bearing field is 3.0 and the reviews script
    computes it, while the minimal script, whose [extract_node_cost]
    returns at the first such field, computes 1.0. *)
Theorem minimal_total_cost_counts_first_cost_field_only :
  CostSpec.sum_of_cost_fields [two_cost_fields] = Ok (NFloat (PyFloat.of_Z 3))
  /\ Reviews.total_cost [two_cost_fields] = Ok (NFloat (PyFloat.of_Z 3))
  /\ Minimal.total_cost [two_cost_fields] = NFloat (PyFloat.of_Z 1).
Proof. repeat split. Qed.

Lemma get_lookup d key dflt :
  PyVal.get d key dflt
  = match PyVal.lookup d key with Some v => v | None => dflt end.
Proof.
  induction d as [|[k v] r IH]; [reflexivity|].
  cbn [PyVal.get PyVal.lookup]. destruct (String.eqb k key); [reflexivity|exact IH].
Qed.

(** C6: when the result is a container whose "content" key holds a list of
    records, both scripts resolve the record count to the length of that
    list. *)
Theorem content_list_gives_record_count (d : dict) (records : list pyval) :
  PyVal.lookup d "content" = Some (PList records) ->
  Reviews.n_reviews (PDict d) = Ok (List.length records)
  /\ Minimal.cars_in_run (PDict d) = Ok (List.length records).
Proof.
  intros H. unfold Reviews.n_reviews, Minimal.cars_in_run.
  cbn [Reviews.review_list Minimal.cars rbind].
  rewrite get_lookup, H. split; reflexivity.
Qed.

Lemma content_list_gives_record_count_witness :
  Reviews.n_reviews
    (PDict [("status", PStr "ok"); ("content", PList [PDict []; PDict []; PDict []])])
  = Ok 3%nat
  /\ Minimal.cars_in_run
    (PDict [("status", PStr "ok"); ("content", PList [PDict []; PDict []; PDict []])])
  = Ok 3%nat.
Proof.
  exact (content_list_gives_record_count
           [("status", PStr "ok"); ("content", PList [PDict []; PDict []; PDict []])]
           [PDict []; PDict []; PDict []] eq_refl).
Defined.

Lemma lookup_absent d key :
  PyVal.has_key d key = false -> PyVal.lookup d key = None.
Proof.
  induction d as [|[k x] r IH]; [reflexivity|].
  cbn [PyVal.has_key PyVal.lookup].
  destruct (String.eqb k key); [discriminate|]. exact IH.
Qed.

(** In the reviews script a result that is neither a list nor a container
    with the "content" key is reported, the preview is skipped, and the
    count is that of an empty list. *)
Lemma reviews_unexpected_shape (v : pyval) :
  PyVal.is_list v = false -> PyVal.is_container v = false ->
  Reviews.preview v = Ok [LUnexpected; LRawType (PyVal.type_name v)]
  /\ Reviews.n_reviews v = Ok 0%nat
  /\ forall exec_info total,
       Reviews.total_cost exec_info = Ok total ->
       Reviews.report v exec_info
       = Ok [LUnexpected; LRawType (PyVal.type_name v); LUnable].
Proof.
  intros Hl Hc.
  assert (Hp : Reviews.preview v = Ok [LUnexpected; LRawType (PyVal.type_name v)]).
  { destruct v; try reflexivity; [discriminate Hl|].
    cbn [PyVal.is_container] in Hc. cbn [Reviews.preview]. rewrite Hc. reflexivity. }
  assert (Hn : Reviews.n_reviews v = Ok 0%nat).
  { destruct v; try reflexivity; [discriminate Hl|].
    cbn [PyVal.is_container] in Hc. unfold Reviews.n_reviews.
    cbn [Reviews.review_list]. rewrite get_lookup.
    rewrite (lookup_absent d "content" Hc). reflexivity. }
  split; [exact Hp|]. split; [exact Hn|].
  intros exec_info total Ht. unfold Reviews.report.
  rewrite Hp, Ht, Hn. reflexivity.
Qed.

Lemma minimal_not_list_not_dict (v : pyval) :
  PyVal.is_list v = false -> PyVal.is_dict v = false ->
  forall exec_info, Minimal.report v exec_info = Raise AttributeError.
Proof.
  intros Hl Hd exec_info. destruct v; try reflexivity; discriminate.
Qed.

(** C3: the text "No answer found." is neither a list of records nor a
    container; the reviews script counts zero records for it, while the
    minimal script calls [.get] on it and stops with AttributeError. *)
Theorem minimal_crashes_on_text_result :
  PyVal.is_list (PStr "No answer found.") = false
  /\ PyVal.is_container (PStr "No answer found.") = false
  /\ Reviews.n_reviews (PStr "No answer found.") = Ok 0%nat
  /\ Minimal.cars (PStr "No answer found.") = Raise AttributeError
  /\ Minimal.cars_in_run (PStr "No answer found.") = Raise AttributeError
  /\ forall exec_info,
       Minimal.report (PStr "No answer found.") exec_info = Raise AttributeError.
Proof. repeat split. Qed.

(** C9: with a total cost of 4.00 and 20 records the cost per record is
    the float 0.20, and the estimate printed for 1,000 records is
    "200.00"; the whole projection section of both scripts is as shown. *)
Theorem four_dollars_over_twenty_records :
  exists total cost_per_record : PyFloat.float,
    PyFloat.of_str "4.00" = Some total
    /\ PyFloat.of_str "0.20" = Some cost_per_record
    /\ PyNum.truediv (NFloat total) 20 = Ok cost_per_record
    /\ estimate cost_per_record 1000 = LProjection "    1,000" "200.00"
    /\ Reviews.cost_projection 20 (NFloat total)
       = Ok (Projected cost_per_record
               [LSummary "20" "4.0000" "0.200000"; LProjectionsHeader;
                LProjection "      100" "20.00";
                LProjection "    1,000" "200.00";
                LProjection "  100,000" "20,000.00";
                LProjection "1,000,000" "200,000.00"])
    /\ Minimal.cost_projection 20 (NFloat total)
       = Ok (Projected cost_per_record
               [LSummary "20" "4.0000" "0.200000";
                LProjection "      100" "20.00";
                LProjection "    1,000" "200.00";
                LProjection "  100,000" "20,000.00";
                LProjection "1,000,000" "200,000.00"]).
Proof.
  exists (PyFloat.of_Z 4), (S754_finite false 7205759403792794 (-55)).
  repeat split; vm_compute; reflexivity.
Qed.

(** ** Integers as floats *)

Lemma digits2_size p : digits2_pos p = Pos.size p.
Proof. induction p; simpl; congruence. Qed.

Lemma digits2_bound p n :
  0 <= n -> Zpos p < 2 ^ n -> Zpos (digits2_pos p) <= n.
Proof.
  intros Hn Hp. rewrite digits2_size.
  pose proof (Pos.size_le p) as H.
  apply Pos2Z.pos_le_pos in H. rewrite Pos2Z.inj_pow in H.
  change (Zpos p~0) with (2 * Zpos p) in H.
  assert (H2 : 2 ^ Zpos (Pos.size p) < 2 ^ (n + 1)).
  { rewrite Z.pow_add_r, Z.pow_1_r by lia. lia. }
  apply Z.pow_lt_mono_r_iff in H2; lia.
Qed.

Lemma iter_xO_value k : forall p, Zpos (Pos.iter xO p k) = Zpos p * 2 ^ Zpos k.
Proof.
  induction k using Pos.peano_ind; intros p.
  - simpl. lia.
  - rewrite Pos.iter_succ, Pos2Z.inj_succ, Z.pow_succ_r by lia.
    change (Zpos (Pos.iter xO p k)~0) with (2 * Zpos (Pos.iter xO p k)).
    rewrite IHk. lia.
Qed.

Lemma iter_xO_digits k : forall p,
  Zpos (digits2_pos (Pos.iter xO p k)) = Zpos (digits2_pos p) + Zpos k.
Proof.
  induction k using Pos.peano_ind; intros p.
  - simpl. lia.
  - rewrite Pos.iter_succ. cbn [digits2_pos].
    rewrite Pos2Z.inj_succ, IHk, Pos2Z.inj_succ. lia.
Qed.

(** A mantissa that is already in canonical position is kept as it is. *)
Lemma binary_round_aux_canonical s m e :
  fexp PyFloat.prec PyFloat.emax (Zpos (digits2_pos m) + e) = e ->
  e <= PyFloat.emax - PyFloat.prec ->
  binary_round_aux PyFloat.prec PyFloat.emax s (Zpos m) e loc_Exact
  = S754_finite s m e.
Proof.
  intros Hc He. unfold binary_round_aux, shr_fexp.
  cbn [Zdigits2 shr_record_of_loc]. rewrite Hc, Z.sub_diag.
  cbn [shr shr_m loc_of_shr_record round_nearest_even Zdigits2 shr_record_of_loc].
  rewrite Hc, Z.sub_diag. cbn [shr shr_m].
  apply Z.leb_le in He. rewrite He. reflexivity.
Qed.

Lemma binary_round_small s p :
  Zpos p < 2 ^ 53 ->
  exists m e,
    binary_round PyFloat.prec PyFloat.emax s p 0 = S754_finite s m e
    /\ e <= 0 /\ Zpos m = Zpos p * 2 ^ (- e).
Proof.
  intros Hp. pose proof (digits2_bound p 53 ltac:(lia) Hp) as Hd.
  assert (Hd1 : 1 <= Zpos (digits2_pos p)) by lia.
  unfold binary_round.
  assert (Hf : fexp PyFloat.prec PyFloat.emax (Zpos (digits2_pos p) + 0)
               = Zpos (digits2_pos p) - 53).
  { unfold fexp, emin, PyFloat.prec, PyFloat.emax. lia. }
  rewrite Hf. unfold shl_align.
  destruct (Zpos (digits2_pos p) - 53 - 0) as [|k|k] eqn:Ek; [| lia |].
  - exists p, 0. split; [|split; [lia|simpl; lia]].
    apply binary_round_aux_canonical.
    + rewrite Hf. lia.
    + unfold PyFloat.prec, PyFloat.emax. lia.
  - exists (Pos.iter xO p k), (Zpos (digits2_pos p) - 53).
    split; [|split; [lia|]].
    + apply binary_round_aux_canonical.
      * rewrite iter_xO_digits. unfold fexp, emin, PyFloat.prec, PyFloat.emax. lia.
      * unfold PyFloat.prec, PyFloat.emax. lia.
    + rewrite iter_xO_value. f_equal. f_equal. lia.
Qed.

Lemma to_Z_exact_scaled s m e p :
  e <= 0 -> Zpos m = Zpos p * 2 ^ (- e) ->
  PyFloat.to_Z_exact (S754_finite s m e) = Some (if s then Zneg p else Zpos p).
Proof.
  intros He Hm. unfold PyFloat.to_Z_exact.
  destruct (0 <=? e) eqn:E0.
  - apply Z.leb_le in E0. assert (e = 0) by lia. subst e.
    cbn [option_map]. change (2 ^ 0) with 1. change (2 ^ (- 0)) with 1 in Hm.
    rewrite Z.mul_1_r in *. rewrite Hm. destruct s; reflexivity.
  - assert (Hpos : 0 < 2 ^ (- e)) by (apply Z.pow_pos_nonneg; lia).
    rewrite Hm, Z.mod_mul by lia. cbn [Z.eqb option_map].
    rewrite Z.div_mul by lia. destruct s; reflexivity.
Qed.

(** Every integer of magnitude at most 2^53 converts to the float equal to
    it. *)
Lemma of_int_exact z :
  Z.abs z <= 2 ^ 53 ->
  PyFloat.of_int z = Ok (PyFloat.of_Z z)
  /\ PyFloat.to_Z_exact (PyFloat.of_Z z) = Some z.
Proof.
  intros Hz. unfold PyFloat.of_int, PyFloat.of_Z, binary_normalize.
  destruct z as [|p|p].
  - split; reflexivity.
  - destruct (Z.eq_dec (Zpos p) (2 ^ 53)) as [E|E].
    + injection E as ->. split; reflexivity.
    + destruct (binary_round_small false p) as (m & e & Hr & He & Hm);
        [cbn [Z.abs] in Hz; lia|].
      rewrite Hr. split; [reflexivity|].
      exact (to_Z_exact_scaled false m e p He Hm).
  - destruct (Z.eq_dec (Zpos p) (2 ^ 53)) as [E|E].
    + injection E as ->. split; reflexivity.
    + destruct (binary_round_small true p) as (m & e & Hr & He & Hm);
        [cbn [Z.abs] in Hz; lia|].
      rewrite Hr. split; [reflexivity|].
      exact (to_Z_exact_scaled true m e p He Hm).
Qed.

Lemma iter_pos_iter {A} (f : A -> A) n : forall x, iter_pos f n x = Pos.iter f x n.
Proof.
  induction n as [n IH|n IH|]; intros x; cbn [iter_pos Pos.iter].
  - rewrite !IH, !Pos.iter_swap. reflexivity.
  - rewrite !IH. reflexivity.
  - reflexivity.
Qed.

Lemma shr_exact j : forall q,
  Pos.iter shr_1 {| shr_m := Zpos (Pos.iter xO q j); shr_r := false; shr_s := false |} j
  = {| shr_m := Zpos q; shr_r := false; shr_s := false |}.
Proof.
  induction j using Pos.peano_ind; intros q.
  - reflexivity.
  - rewrite Pos.iter_succ_r, Pos.iter_succ. cbn [shr_1 orb]. apply IHj.
Qed.

Lemma digits2_lower p n : 2 ^ n <= Zpos p -> n < Zpos (digits2_pos p).
Proof.
  intros H. rewrite digits2_size.
  pose proof (Pos.size_gt p) as G.
  apply Pos2Z.pos_lt_pos in G. rewrite Pos2Z.inj_pow in G.
  destruct (Z_lt_le_dec n (Zpos (Pos.size p))) as [L|L]; [exact L|].
  exfalso. assert (2 ^ Zpos (Pos.size p) <= 2 ^ n)
    by (apply Z.pow_le_mono_r; lia). lia.
Qed.

Lemma binary_round_large s p m k :
  0 <= k -> 0 < m < 2 ^ 53 -> Zpos p = m * 2 ^ k ->
  2 ^ 53 <= Zpos p < 2 ^ 1024 ->
  exists q j,
    binary_round PyFloat.prec PyFloat.emax s p 0 = S754_finite s q (Zpos j)
    /\ Zpos p = Zpos q * 2 ^ Zpos j.
Proof.
  intros Hk Hm Hp [Hlo Hhi].
  pose proof (digits2_lower p 53 Hlo) as Hd1.
  pose proof (digits2_bound p 1024 ltac:(lia) Hhi) as Hd2.
  assert (Hd3 : Zpos (digits2_pos p) <= 53 + k).
  { apply digits2_bound; [lia|]. rewrite Hp, Z.pow_add_r by lia.
    apply Z.mul_lt_mono_pos_r; [apply Z.pow_pos_nonneg; lia|lia]. }
  remember (Zpos (digits2_pos p)) as d eqn:Ed.
  destruct (d - 53) as [|j|j] eqn:Ej; try lia.
  assert (Hq : 0 < m * 2 ^ (k - Zpos j)).
  { apply Z.mul_pos_pos; [lia|apply Z.pow_pos_nonneg; lia]. }
  set (q := Z.to_pos (m * 2 ^ (k - Zpos j))).
  assert (Hqv : Zpos q = m * 2 ^ (k - Zpos j)) by (unfold q; rewrite Z2Pos.id; lia).
  assert (Hpq : p = Pos.iter xO q j).
  { apply Pos2Z.inj. rewrite iter_xO_value, Hqv, Hp, <- Z.mul_assoc.
    rewrite <- Z.pow_add_r by lia. f_equal. f_equal. lia. }
  assert (Hdq : Zpos (digits2_pos q) = 53).
  { pose proof (iter_xO_digits j q) as H. rewrite <- Hpq, <- Ed in H. lia. }
  exists q, j. split; [|rewrite Hpq at 1; apply iter_xO_value].
  unfold binary_round.
  assert (Hf : fexp PyFloat.prec PyFloat.emax (Zpos (digits2_pos p) + 0) = Zpos j).
  { unfold fexp, emin, PyFloat.prec, PyFloat.emax. lia. }
  rewrite Hf. unfold shl_align. cbn [Z.sub Z.opp Z.add].
  unfold binary_round_aux, shr_fexp.
  cbn [Zdigits2 shr_record_of_loc]. rewrite Hf.
  cbn [Z.sub Z.opp Z.add shr]. rewrite iter_pos_iter.
  pose proof (shr_exact j q) as Hshr. rewrite <- Hpq in Hshr. rewrite !Hshr.
  cbn [shr_m loc_of_shr_record round_nearest_even Zdigits2 shr_record_of_loc].
  assert (Hf2 : fexp PyFloat.prec PyFloat.emax (Zpos (digits2_pos q) + Zpos j) - Zpos j = 0).
  { rewrite Hdq. unfold fexp, emin, PyFloat.prec, PyFloat.emax. lia. }
  rewrite Hf2. cbn [shr shr_m].
  assert (Hle : (Zpos j <=? PyFloat.emax - PyFloat.prec) = true).
  { apply Z.leb_le. unfold PyFloat.prec, PyFloat.emax. lia. }
  rewrite Hle. reflexivity.
Qed.

Lemma to_Z_exact_shifted s q j p :
  Zpos p = Zpos q * 2 ^ Zpos j ->
  PyFloat.to_Z_exact (S754_finite s q (Zpos j)) = Some (if s then Zneg p else Zpos p).
Proof.
  intros H. unfold PyFloat.to_Z_exact. cbn [Z.leb Z.compare option_map].
  rewrite <- H. destruct s; reflexivity.
Qed.

Lemma binary_round_exact s p m k :
  0 <= k -> 0 < m < 2 ^ 53 -> Zpos p = m * 2 ^ k -> Zpos p < 2 ^ 1024 ->
  exists q e,
    binary_round PyFloat.prec PyFloat.emax s p 0 = S754_finite s q e
    /\ PyFloat.to_Z_exact (S754_finite s q e)
       = Some (if s then Zneg p else Zpos p).
Proof.
  intros Hk Hm Hp Hhi.
  destruct (Z_lt_le_dec (Zpos p) (2 ^ 53)) as [Hs|Hl].
  - destruct (binary_round_small s p Hs) as (q & e & Hr & He & Hq).
    exists q, e. split; [exact Hr|]. exact (to_Z_exact_scaled s q e p He Hq).
  - destruct (binary_round_large s p m k Hk Hm Hp (conj Hl Hhi)) as (q & j & Hr & Hq).
    exists q, (Zpos j). split; [exact Hr|]. exact (to_Z_exact_shifted s q j p Hq).
Qed.

(** Every integer that binary64 holds exactly converts to the float equal
    to it. *)
Lemma of_int_representable z :
  exact_in_binary64 z ->
  PyFloat.of_int z = Ok (PyFloat.of_Z z)
  /\ PyFloat.to_Z_exact (PyFloat.of_Z z) = Some z.
Proof.
  intros (m & k & Hk & Hm & Hz & Hhi).
  unfold PyFloat.of_int, PyFloat.of_Z, binary_normalize.
  assert (Hpow : 0 < 2 ^ k) by (apply Z.pow_pos_nonneg; lia).
  destruct z as [|p|p].
  - split; reflexivity.
  - assert (Hm0 : 0 < m) by nia.
    destruct (binary_round_exact false p m k Hk ltac:(lia) Hz
                ltac:(cbn [Z.abs] in Hhi; lia))
      as (q & e & Hr & He).
    rewrite Hr. split; [reflexivity|exact He].
  - assert (Hm0 : m < 0) by nia.
    assert (Hz' : Zpos p = (- m) * 2 ^ k) by lia.
    destruct (binary_round_exact true p (- m) k Hk ltac:(lia) Hz'
                ltac:(cbn [Z.abs] in Hhi; lia))
      as (q & e & Hr & He).
    rewrite Hr. split; [reflexivity|exact He].
Qed.

(** ** Numeric cost values and the guard of the projection *)

(** C8, as amended: a float is returned unchanged; an integer that binary64
    holds exactly (and a [bool], which is an [int]) is returned as the
    float equal to it. *)
Theorem to_float_numeric_unchanged :
  (forall f : PyFloat.float, Reviews._to_float (PFloat f) = Ok f)
  /\ (forall z : Z,
         exact_in_binary64 z ->
         exists f, Reviews._to_float (PInt z) = Ok f /\ PyFloat.eq_int f z = true)
  /\ (forall b : bool,
         exists f, Reviews._to_float (PBool b) = Ok f
                   /\ PyFloat.eq_int f (if b then 1 else 0) = true).
Proof.
  split; [reflexivity|]. split.
  - intros z Hz. destruct (of_int_representable z Hz) as [Hi He].
    exists (PyFloat.of_Z z). split; [exact Hi|].
    unfold PyFloat.eq_int. rewrite He. apply Z.eqb_refl.
  - intros [|]; eexists; split; reflexivity.
Qed.

Lemma to_float_numeric_unchanged_witness :
  exists f, Reviews._to_float (PInt (2 ^ 60 + 2 ^ 10)) = Ok f
            /\ PyFloat.eq_int f (2 ^ 60 + 2 ^ 10) = true.
Proof.
  apply (proj1 (proj2 to_float_numeric_unchanged) (2 ^ 60 + 2 ^ 10)).
  exists (2 ^ 50 + 1), 10. repeat split; vm_compute; congruence.
Defined.

(** C8 fails on an integer that binary64 does not hold: 2^53 + 1 comes
    back as the float 2^53, which is not equal to it. *)
Lemma to_float_large_int_changed :
  Reviews._to_float (PInt 9007199254740993)
  = Ok (PyFloat.of_Z 9007199254740992)
  /\ PyFloat.eq_int (PyFloat.of_Z 9007199254740992) 9007199254740993 = false.
Proof. repeat split; vm_compute; reflexivity. Qed.

(** ** The guard of the projection *)

Lemma zero_not_positive total :
  PyNum.is_zero total = true ->
  PyNum.gt0 total = false /\ PyNum.truthy total = false.
Proof.
  destruct total as [z|f]; cbn [PyNum.is_zero PyNum.gt0 PyNum.truthy].
  - intros H. apply Z.eqb_eq in H. subst z. split; reflexivity.
  - destruct f; try discriminate. intros _. split; reflexivity.
Qed.

Lemma truthy_not_zero total : PyNum.truthy total = negb (PyNum.is_zero total).
Proof. destruct total as [z|f]; [reflexivity|]. destruct f; reflexivity. Qed.

Lemma of_int_not_zero_division n : PyFloat.of_int n <> Raise ZeroDivisionError.
Proof. unfold PyFloat.of_int. destruct (PyFloat.of_Z n); discriminate. Qed.

Lemma truediv_not_zero_division total n :
  n <> 0 -> PyNum.truediv total n <> Raise ZeroDivisionError.
Proof.
  intros Hn. unfold PyNum.truediv.
  destruct (n =? 0) eqn:E; [apply Z.eqb_eq in E; contradiction|].
  destruct total as [z|f].
  - destruct (z =? 0); [discriminate|].
    destruct (PyFloat.of_ratio _ _ _); discriminate.
  - pose proof (of_int_not_zero_division n) as H.
    destruct (PyFloat.of_int n) as [d|e]; cbn [rbind]; [discriminate|exact H].
Qed.

Lemma bind_not_zero_division {A B} (r : result A) (k : A -> B) :
  r <> Raise ZeroDivisionError ->
  (let? q := r in Ok (k q)) <> Raise ZeroDivisionError.
Proof.
  intros H. destruct r; cbn [rbind]; [discriminate|].
  intros E. apply H. injection E as ->. reflexivity.
Qed.

(** C2, as amended: with no record or a total cost of zero both scripts
    report that no projection is possible and divide nothing, and neither
    ever raises ZeroDivisionError.  Otherwise the minimal script divides
    the total by the count; the reviews script divides when the total is
    greater than zero, and reports that no projection is possible for any
    other total. *)
Theorem cost_projection_guard (n : nat) (total : num) :
  ((n = 0%nat \/ PyNum.is_zero total = true) ->
   Reviews.cost_projection n total = Ok Unable
   /\ Minimal.cost_projection n total = Ok Unable)
  /\ Reviews.cost_projection n total <> Raise ZeroDivisionError
  /\ Minimal.cost_projection n total <> Raise ZeroDivisionError
  /\ (n <> 0%nat -> PyNum.is_zero total = false ->
      Minimal.cost_projection n total
      = let? q := PyNum.truediv total (Z.of_nat n) in
        Ok (Projected q (Minimal.printed n total q)))
  /\ (n <> 0%nat -> PyNum.gt0 total = true ->
      Reviews.cost_projection n total
      = let? q := PyNum.truediv total (Z.of_nat n) in
        Ok (Projected q (Reviews.printed n total q)))
  /\ (PyNum.gt0 total = false -> Reviews.cost_projection n total = Ok Unable).
Proof.
  unfold Reviews.cost_projection, Minimal.cost_projection.
  repeat apply conj.
  - intros [-> | Hz].
    + split; reflexivity.
    + destruct (zero_not_positive total Hz) as [-> ->].
      rewrite !andb_false_r. split; reflexivity.
  - destruct (0 <? Z.of_nat n) eqn:En; cbn [andb]; [|discriminate].
    destruct (PyNum.gt0 total); [|discriminate].
    apply bind_not_zero_division, truediv_not_zero_division.
    apply Z.ltb_lt in En. lia.
  - destruct (Z.of_nat n =? 0) eqn:En; cbn [andb negb]; [discriminate|].
    destruct (PyNum.truthy total); [|discriminate].
    apply bind_not_zero_division, truediv_not_zero_division.
    apply Z.eqb_neq in En. exact En.
  - intros Hn Hz. rewrite truthy_not_zero, Hz.
    assert (E : (Z.of_nat n =? 0) = false) by (apply Z.eqb_neq; lia).
    rewrite E. reflexivity.
  - intros Hn Hg. rewrite Hg.
    assert (E : (0 <? Z.of_nat n) = true) by (apply Z.ltb_lt; lia).
    rewrite E. reflexivity.
  - intros Hg. rewrite Hg, andb_false_r. reflexivity.
Qed.

Lemma cost_projection_guard_witness :
  Reviews.cost_projection 0 (NFloat (PyFloat.of_Z 4)) = Ok Unable
  /\ Minimal.cost_projection 0 (NFloat (PyFloat.of_Z 4)) = Ok Unable.
Proof.
  exact (proj1 (cost_projection_guard 0 (NFloat (PyFloat.of_Z 4)))
               (or_introl eq_refl)).
Defined.

(** C2 fails for a negative total: one record and a total of -1.0, neither
    of them zero, and the reviews script divides nothing. *)
Lemma reviews_refuses_negative_total :
  (1 <> 0)%nat
  /\ PyNum.is_zero (NFloat minus_one) = false
  /\ Reviews.total_cost [[("total_cost_USD", PStr "$-1")]] = Ok (NFloat minus_one)
  /\ PyNum.truediv (NFloat minus_one) 1 = Ok minus_one
  /\ Reviews.cost_projection 1 (NFloat minus_one) = Ok Unable
  /\ Minimal.cost_projection 1 (NFloat minus_one)
     = Ok (Projected minus_one (Minimal.printed 1 (NFloat minus_one) minus_one)).
Proof. repeat split; try discriminate; vm_compute; reflexivity. Qed.

(** ** More on totals, result shapes and reports *)

Lemma filter_twice {A} (p : A -> bool) (l : list A) :
  filter p (filter p l) = filter p l.
Proof.
  induction l as [|a r IH]; [reflexivity|]. cbn [filter].
  destruct (p a) eqn:E; [|exact IH]. cbn [filter]. rewrite E, IH. reflexivity.
Qed.

Lemma cost_fields_of_cost_items exec_info :
  CostSpec.cost_fields (map CostShape.cost_items exec_info)
  = CostSpec.cost_fields exec_info.
Proof.
  induction exec_info as [|node r IH]; [reflexivity|].
  cbn [map CostSpec.cost_fields flat_map]. unfold CostShape.cost_items at 1.
  rewrite filter_twice. f_equal. exact IH.
Qed.

Lemma extract_node_cost_head node :
  Minimal.extract_node_cost node
  = match CostShape.cost_items node with
    | [] => PyFloat.zero
    | (_, v) :: _ => Minimal.coerce v
    end.
Proof.
  induction node as [|[k v] r IH]; [reflexivity|].
  cbn [Minimal.extract_node_cost CostShape.cost_items filter fst].
  destruct (is_cost_key k); [reflexivity|exact IH].
Qed.

Lemma extract_node_cost_of_cost_items node :
  Minimal.extract_node_cost (CostShape.cost_items node)
  = Minimal.extract_node_cost node.
Proof.
  rewrite !extract_node_cost_head. unfold CostShape.cost_items.
  rewrite filter_twice. reflexivity.
Qed.

(** X1: the fields whose key does not contain "cost" never influence the
    total: dropping them from every node leaves the total of both scripts
    as it is. *)
Theorem other_fields_do_not_count (exec_info : list dict) :
  Reviews.total_cost (map CostShape.cost_items exec_info)
  = Reviews.total_cost exec_info
  /\ Minimal.total_cost (map CostShape.cost_items exec_info)
     = Minimal.total_cost exec_info.
Proof.
  split.
  - rewrite !reviews_total_cost_sums_every_cost_field.
    unfold CostSpec.sum_of_cost_fields. rewrite cost_fields_of_cost_items.
    reflexivity.
  - unfold Minimal.total_cost. rewrite map_map. f_equal.
    apply map_ext. exact extract_node_cost_of_cost_items.
Qed.

Lemma lower_app a b : PyStr.lower (a ++ b) = PyStr.lower a ++ PyStr.lower b.
Proof.
  induction a as [|c r IH]; [reflexivity|].
  cbn [append PyStr.lower]. rewrite IH. reflexivity.
Qed.

Lemma prefix_app sub b : prefix sub (sub ++ b) = true.
Proof.
  induction sub as [|c r IH]; [destruct b; reflexivity|].
  change (prefix (String c r) (String c r ++ b))
    with (if ascii_dec c c then prefix r (r ++ b) else false).
  destruct (ascii_dec c c) as [_|n]; [exact IH|contradiction].
Qed.

Lemma contains_inside sub a b : PyStr.contains sub (a ++ sub ++ b) = true.
Proof.
  induction a as [|c r IH].
  - cbn [append]. destruct sub as [|d s].
    + destruct b; reflexivity.
    + cbn [PyStr.contains append].
      change (String d (s ++ b)) with (String d s ++ b).
      rewrite prefix_app. reflexivity.
  - cbn [append PyStr.contains]. rewrite IH. apply orb_true_r.
Qed.

(** X2: a key counts as cost-bearing as soon as it contains the letters
    c, o, s, t in a row, in any mix of cases and at any place. *)
Theorem cost_key_any_case_anywhere (a w b : string) :
  PyStr.lower w = "cost" -> is_cost_key (a ++ w ++ b) = true.
Proof.
  intros Hw. unfold is_cost_key. rewrite !lower_app, Hw.
  apply contains_inside.
Qed.

Lemma cost_key_any_case_anywhere_witness :
  is_cost_key "Total COST ($)" = true.
Proof.
  exact (cost_key_any_case_anywhere "Total " "COST" " ($)" eq_refl).
Defined.

Lemma to_float_raises v e :
  Reviews._to_float v = Raise e ->
  e = OverflowError
  /\ exists z, v = PInt z /\ PyFloat.of_int z = Raise OverflowError.
Proof.
  destruct v as [ |b|z|f|s|l|d]; cbn [Reviews._to_float]; try discriminate.
  - destruct b; discriminate.
  - unfold PyFloat.of_int. intros H.
    assert (He : e = OverflowError).
    { destruct (PyFloat.of_Z z); try discriminate. injection H as <-. reflexivity. }
    subst e. split; [reflexivity|]. exists z. split; [reflexivity|exact H].
  - destruct (PyFloat.of_str _); discriminate.
Qed.

Lemma coerce_all_raises vs e :
  CostSpec.coerce_all vs = Raise e ->
  exists v, In v vs /\ Reviews._to_float v = Raise e.
Proof.
  induction vs as [|v r IH]; [discriminate|].
  cbn [CostSpec.coerce_all].
  destruct (Reviews._to_float v) as [f|e'] eqn:Ev; cbn [rbind].
  - destruct (CostSpec.coerce_all r) as [fs|e'']; cbn [rbind]; [discriminate|].
    intros H. injection H as ->.
    destruct (IH eq_refl) as (w & Hin & Hw). exists w. split; [right; exact Hin|exact Hw].
  - intros H. injection H as ->. exists v. split; [left; reflexivity|exact Ev].
Qed.

Lemma coerce_all_ok vs :
  (forall v, In v vs -> exists f, Reviews._to_float v = Ok f) ->
  exists fs, CostSpec.coerce_all vs = Ok fs.
Proof.
  intros H. destruct (CostSpec.coerce_all vs) as [fs|e] eqn:E; [eauto|].
  destruct (coerce_all_raises vs e E) as (v & Hin & Hv).
  destruct (H v Hin) as [f Hf]. rewrite Hf in Hv. discriminate.
Qed.

(** X3: the total of the reviews script raises nothing but OverflowError,
    and only when a cost-bearing field holds an integer beyond the range
    of the floats; with every integer cost of magnitude at most 2^53 the
    total is computed, whatever the other fields hold. *)
Theorem total_cost_raises_on_huge_int_only (exec_info : list dict) :
  (forall e,
      Reviews.total_cost exec_info = Raise e ->
      e = OverflowError
      /\ exists z, In (PInt z) (CostSpec.cost_fields exec_info)
                   /\ PyFloat.of_int z = Raise OverflowError)
  /\ ((forall z, In (PInt z) (CostSpec.cost_fields exec_info) ->
                 Z.abs z <= 2 ^ 53) ->
      exists total, Reviews.total_cost exec_info = Ok total).
Proof.
  rewrite reviews_total_cost_sums_every_cost_field.
  unfold CostSpec.sum_of_cost_fields. split.
  - intros e H.
    destruct (CostSpec.coerce_all (CostSpec.cost_fields exec_info)) as [fs|e'] eqn:E;
      cbn [rbind] in H; [discriminate|]. injection H as ->.
    destruct (coerce_all_raises _ _ E) as (v & Hin & Hv).
    destruct (to_float_raises v e Hv) as (He & z & -> & Hz).
    split; [exact He|]. exists z. split; [exact Hin|exact Hz].
  - intros Hsmall.
    destruct (coerce_all_ok (CostSpec.cost_fields exec_info)) as [fs Hfs].
    + intros v Hin.
      destruct (Reviews._to_float v) as [f|e] eqn:Ev; [eauto|].
      destruct (to_float_raises v e Ev) as (_ & z & -> & Hz).
      destruct (of_int_exact z (Hsmall z Hin)) as [Hok _].
      rewrite Hok in Hz. discriminate.
    + rewrite Hfs. cbn [rbind]. eauto.
Qed.

Lemma total_cost_raises_on_huge_int_only_witness :
  exists total,
    Reviews.total_cost [[("total_cost_USD", PInt 3); ("exec_time", PInt (10 ^ 400))]]
    = Ok total.
Proof.
  apply (proj2 (total_cost_raises_on_huge_int_only
                  [[("total_cost_USD", PInt 3); ("exec_time", PInt (10 ^ 400))]])).
  intros z [H|[]]. injection H as <-. vm_compute. discriminate.
Defined.

Lemma plain_cost_coerced v :
  CostShape.is_str_or_float v = true ->
  Reviews._to_float v = Ok (Minimal.coerce v).
Proof.
  destruct v; try discriminate; intros _; cbn [Reviews._to_float Minimal.coerce].
  - reflexivity.
  - destruct (PyFloat.of_str _); reflexivity.
Qed.

Lemma single_plain_cost_node node :
  CostShape.single_plain_cost node = true ->
  CostSpec.coerce_all (map snd (CostShape.cost_items node))
  = Ok [Minimal.extract_node_cost node].
Proof.
  unfold CostShape.single_plain_cost. rewrite extract_node_cost_head.
  destruct (CostShape.cost_items node) as [|[k v] [|x r]]; try discriminate.
  intros Hv. cbn [map snd CostSpec.coerce_all].
  rewrite (plain_cost_coerced v Hv). reflexivity.
Qed.

Lemma single_plain_cost_all exec_info :
  forallb CostShape.single_plain_cost exec_info = true ->
  CostSpec.coerce_all (CostSpec.cost_fields exec_info)
  = Ok (map Minimal.extract_node_cost exec_info).
Proof.
  induction exec_info as [|node r IH]; [reflexivity|].
  cbn [forallb]. intros H. apply andb_true_iff in H. destruct H as [Hn Hr].
  cbn [CostSpec.cost_fields flat_map map].
  rewrite coerce_all_app.
  change (filter (fun kv => is_cost_key (fst kv)) node)
    with (CostShape.cost_items node).
  rewrite (single_plain_cost_node node Hn). cbn [rbind].
  fold (CostSpec.cost_fields r). rewrite (IH Hr). reflexivity.
Qed.

(** X4: when every node carries exactly one cost-bearing field and that
    field holds a string or a float, the two scripts compute the same
    total. *)
Theorem scripts_agree_on_one_cost_per_node (exec_info : list dict) :
  forallb CostShape.single_plain_cost exec_info = true ->
  Reviews.total_cost exec_info = Ok (Minimal.total_cost exec_info).
Proof.
  intros H. rewrite reviews_total_cost_sums_every_cost_field.
  unfold CostSpec.sum_of_cost_fields, Minimal.total_cost.
  rewrite (single_plain_cost_all exec_info H). reflexivity.
Qed.

Lemma scripts_agree_on_one_cost_per_node_witness :
  Reviews.total_cost
    [[("node_name", PStr "Fetch"); ("total_cost_USD", PFloat PyFloat.zero)];
     [("node_name", PStr "GenerateAnswer"); ("total_cost_USD", PStr "$0.002")]]
  = Ok (Minimal.total_cost
    [[("node_name", PStr "Fetch"); ("total_cost_USD", PFloat PyFloat.zero)];
     [("node_name", PStr "GenerateAnswer"); ("total_cost_USD", PStr "$0.002")]]).
Proof.
  exact (scripts_agree_on_one_cost_per_node
    [[("node_name", PStr "Fetch"); ("total_cost_USD", PFloat PyFloat.zero)];
     [("node_name", PStr "GenerateAnswer"); ("total_cost_USD", PStr "$0.002")]]
    eq_refl).
Defined.

(** X5: whitespace around a cost string never changes what it is coerced
    to, whether the string is a number or not. *)
Theorem cost_string_whitespace_ignored (l s r : string) :
  PyStr.all PyStr.isspace l = true ->
  PyStr.all PyStr.isspace r = true ->
  Reviews._to_float (PStr (l ++ s ++ r)) = Reviews._to_float (PStr s)
  /\ Minimal.coerce (PStr (l ++ s ++ r)) = Minimal.coerce (PStr s).
Proof.
  intros Hl Hr. rewrite !to_float_str, !coerce_str, !without_app.
  rewrite (without_id "$" l (spaces_no_dollar l Hl)).
  rewrite (without_id "$" r (spaces_no_dollar r Hr)).
  rewrite (of_str_surrounded l _ r Hl Hr). split; reflexivity.
Qed.

Lemma cost_string_whitespace_ignored_witness :
  Reviews._to_float (PStr "  n/a ") = Reviews._to_float (PStr "n/a")
  /\ Minimal.coerce (PStr "  n/a ") = Minimal.coerce (PStr "n/a").
Proof.
  exact (cost_string_whitespace_ignored "  " "n/a" " " eq_refl eq_refl).
Defined.

Lemma no_cost_items exec_info :
  CostSpec.cost_fields exec_info = [] ->
  forall node, In node exec_info -> CostShape.cost_items node = [].
Proof.
  induction exec_info as [|n r IH]; intros H node Hin; [destruct Hin|].
  destruct Hin as [Hn|Hn].
  - subst n. cbn [CostSpec.cost_fields flat_map] in H.
    apply app_eq_nil in H. destruct H as [H _].
    unfold CostShape.cost_items.
    destruct (filter _ node); [reflexivity|discriminate H].
  - cbn [CostSpec.cost_fields flat_map] in H.
    apply app_eq_nil in H. destruct H as [_ H]. exact (IH H node Hn).
Qed.

Lemma sum_of_zeros_falsy zs : forall acc,
  PyNum.truthy acc = false ->
  (forall z, In z zs -> z = PyFloat.zero) ->
  PyNum.truthy (fold_left PyNum.add zs acc) = false.
Proof.
  induction zs as [|z r IH]; intros acc Hacc Hz; [exact Hacc|].
  cbn [fold_left]. apply IH.
  - rewrite (Hz z (or_introl eq_refl)).
    destruct acc as [a|f].
    + cbn [PyNum.truthy] in Hacc. apply negb_false_iff, Z.eqb_eq in Hacc.
      subst a. reflexivity.
    + destruct f as [[|]| | |]; try discriminate Hacc; reflexivity.
  - intros z' Hin. apply Hz. right. exact Hin.
Qed.

(** X6: when no node has a cost-bearing field, the total of the reviews
    script is the integer 0, and both scripts report that no projection is
    possible, whatever the number of records. *)
Theorem no_cost_field_no_projection (exec_info : list dict) (n : nat) :
  CostSpec.cost_fields exec_info = [] ->
  Reviews.total_cost exec_info = Ok (NInt 0)
  /\ Reviews.cost_projection n (NInt 0) = Ok Unable
  /\ Minimal.cost_projection n (Minimal.total_cost exec_info) = Ok Unable.
Proof.
  intros H. split; [|split].
  - rewrite reviews_total_cost_sums_every_cost_field.
    unfold CostSpec.sum_of_cost_fields. rewrite H. reflexivity.
  - unfold Reviews.cost_projection. cbn [PyNum.gt0].
    rewrite andb_false_r. reflexivity.
  - unfold Minimal.cost_projection, Minimal.total_cost, PyNum.sum.
    rewrite sum_of_zeros_falsy.
    + rewrite andb_false_r. reflexivity.
    + reflexivity.
    + intros z Hz. apply in_map_iff in Hz. destruct Hz as (node & <- & Hin).
      rewrite extract_node_cost_head, (no_cost_items exec_info H node Hin).
      reflexivity.
Qed.

Lemma no_cost_field_no_projection_witness :
  Reviews.total_cost [[("node_name", PStr "Fetch"); ("exec_time", PFloat (PyFloat.of_Z 2))]]
  = Ok (NInt 0)
  /\ Reviews.cost_projection 20 (NInt 0) = Ok Unable
  /\ Minimal.cost_projection 20
       (Minimal.total_cost
          [[("node_name", PStr "Fetch"); ("exec_time", PFloat (PyFloat.of_Z 2))]])
     = Ok Unable.
Proof.
  exact (no_cost_field_no_projection
           [[("node_name", PStr "Fetch"); ("exec_time", PFloat (PyFloat.of_Z 2))]]
           20 eq_refl).
Defined.

Lemma lookup_has_key d key v :
  PyVal.lookup d key = Some v -> PyVal.has_key d key = true.
Proof.
  induction d as [|[k x] r IH]; [discriminate|].
  cbn [PyVal.lookup PyVal.has_key]. destruct (String.eqb k key); [reflexivity|exact IH].
Qed.

(** X7: a container whose "content" key holds None, a boolean or a number
    stops both scripts with TypeError, whatever the execution metadata. *)
Theorem scalar_content_stops_the_run (d : dict) (v : pyval) (exec_info : list dict) :
  PyVal.lookup d "content" = Some v ->
  CostShape.is_scalar v = true ->
  Reviews.report (PDict d) exec_info = Raise TypeError
  /\ Minimal.report (PDict d) exec_info = Raise TypeError.
Proof.
  intros Hl Hs. unfold Reviews.report, Minimal.report, Minimal.cars_in_run.
  cbn [Reviews.preview Minimal.cars rbind].
  rewrite (lookup_has_key d "content" v Hl), !get_lookup, Hl.
  destruct v; try discriminate Hs; split; reflexivity.
Qed.

Lemma scalar_content_stops_the_run_witness :
  Reviews.report (PDict [("content", PNone)]) [] = Raise TypeError
  /\ Minimal.report (PDict [("content", PNone)]) [] = Raise TypeError.
Proof.
  exact (scalar_content_stops_the_run [("content", PNone)] PNone []
           eq_refl eq_refl).
Defined.

Lemma positive_is_truthy total : PyNum.gt0 total = true -> PyNum.truthy total = true.
Proof.
  destruct total as [z|f]; cbn [PyNum.gt0 PyNum.truthy].
  - intros H. apply Z.ltb_lt in H. apply negb_true_iff, Z.eqb_neq. lia.
  - destruct f; try reflexivity. discriminate.
Qed.

(** X8: whenever the reviews script projects, the cost per record is the
    quotient of the total by the count, and the minimal script projects
    the same cost per record from the same count and total. *)
Theorem reviews_projection_is_minimal_projection
  (n : nat) (total : num) (q : PyFloat.float) (printed : list line) :
  Reviews.cost_projection n total = Ok (Projected q printed) ->
  PyNum.truediv total (Z.of_nat n) = Ok q
  /\ printed = Reviews.printed n total q
  /\ Minimal.cost_projection n total
     = Ok (Projected q (Minimal.printed n total q)).
Proof.
  unfold Reviews.cost_projection, Minimal.cost_projection.
  destruct (0 <? Z.of_nat n) eqn:En; cbn [andb]; [|discriminate].
  destruct (PyNum.gt0 total) eqn:Eg; [|discriminate].
  rewrite (positive_is_truthy total Eg).
  assert (E0 : (Z.of_nat n =? 0) = false).
  { apply Z.eqb_neq. apply Z.ltb_lt in En. lia. }
  rewrite E0. cbn [negb andb].
  destruct (PyNum.truediv total (Z.of_nat n)) as [q'|e]; cbn [rbind]; [|discriminate].
  intros H. injection H as -> <-. repeat split.
Qed.

Lemma reviews_projection_is_minimal_projection_witness :
  Minimal.cost_projection 20 (NFloat (PyFloat.of_Z 4))
  = Ok (Projected (S754_finite false 7205759403792794 (-55))
          (Minimal.printed 20 (NFloat (PyFloat.of_Z 4))
             (S754_finite false 7205759403792794 (-55)))).
Proof.
  exact (proj2 (proj2 (reviews_projection_is_minimal_projection
                         20 (NFloat (PyFloat.of_Z 4))
                         (S754_finite false 7205759403792794 (-55))
                         _ eq_refl))).
Defined.










(** ** The browser session *)

Import Playwright.
Open Scope nat_scope.

Section Session.

Variable E : env.

Lemma do_run c st :
  do_ E c st
  = match raises E c (count c (trace st)) with
    | Some e => (Throws e, record c st)
    | None => (Returns tt, effect c (record c st))
    end.
Proof.
  unfold do_, bind, perform, ret. destruct (raises E c _); reflexivity.
Qed.

Lemma bind_do {B} c (k : unit -> M B) st :
  bind (do_ E c) k st
  = match raises E c (count c (trace st)) with
    | Some e => (Throws e, record c st)
    | None => k tt (effect c (record c st))
    end.
Proof.
  unfold bind at 1. rewrite do_run. destruct (raises E c _); reflexivity.
Qed.

Lemma finishes_ret {A} (a : A) : finishes (ret a).
Proof. intros st. discriminate. Qed.

Lemma finishes_throw {A} (e : exn) : finishes (@throw A e).
Proof. intros st. discriminate. Qed.

Lemma finishes_perform c : finishes (perform E c).
Proof. intros st. unfold perform. destruct (raises E c _); discriminate. Qed.

Lemma finishes_bind {A B} (m : M A) (k : A -> M B) :
  finishes m -> (forall a, finishes (k a)) -> finishes (bind m k).
Proof.
  intros Hm Hk st. unfold bind. specialize (Hm st).
  destruct (m st) as [[a|e|] st1]; cbn [fst] in *.
  - apply Hk.
  - discriminate.
  - contradiction.
Qed.

Lemma finishes_do c : finishes (do_ E c).
Proof. apply finishes_bind; [apply finishes_perform|intros; apply finishes_ret]. Qed.

Lemma finishes_content : finishes (content E).
Proof. apply finishes_bind; [apply finishes_perform|intros; apply finishes_ret]. Qed.

Lemma finishes_query_selector : finishes (query_selector E).
Proof. apply finishes_bind; [apply finishes_perform|intros; apply finishes_ret]. Qed.

Lemma finishes_try_except {A} (m : M A) (h : exn -> M A) :
  finishes m -> (forall e, finishes (h e)) -> finishes (try_except m h).
Proof.
  intros Hm Hh st. unfold try_except. specialize (Hm st).
  destruct (m st) as [[a|e|] st1]; cbn [fst] in *.
  - discriminate.
  - apply Hh.
  - contradiction.
Qed.

Lemma finishes_with {A} (body : M A) :
  finishes body -> finishes (with_sync_playwright E body).
Proof.
  intros Hb st. unfold with_sync_playwright.
  pose proof (finishes_perform Start st) as Hs.
  destruct (perform E Start st) as [[k|e|] st1]; cbn [fst] in *.
  - specialize (Hb st1). destruct (body st1) as [[a|e|] st2]; cbn [fst] in *;
      [discriminate|discriminate|contradiction].
  - discriminate.
  - contradiction.
Qed.

Lemma released_record c st : released (record c st) = released st.
Proof. reflexivity. Qed.

(** The [with] statement leaves nothing behind, however its body ends. *)
Lemma with_releases {A} (body : M A) st r st' :
  released st = true ->
  with_sync_playwright E body st = (r, st') ->
  r <> Looping ->
  released st' = true
  /\ (raises E Start (count Start (trace st)) = None ->
      hd_error (trace st') = Some Stop).
Proof.
  intros Hst Hrun Hr. unfold with_sync_playwright, perform in Hrun.
  destruct (raises E Start (count Start (trace st))) as [e|].
  - injection Hrun as <- <-. split; [exact Hst|discriminate].
  - destruct (body (effect Start (record Start st))) as [[a|e|] st2];
      injection Hrun as <- <-; try contradiction; split; reflexivity.
Qed.

Lemma finishes_fetch_rendered_html : finishes (LiveScrape.fetch_rendered_html E).
Proof.
  unfold LiveScrape.fetch_rendered_html.
  apply finishes_with.
  repeat (first [ apply finishes_do | apply finishes_content
                | apply finishes_ret | apply finishes_throw
                | apply finishes_try_except; [|intros ?]
                | apply finishes_bind; [|intros ?] ]).
Qed.

(** One round of the loop either raises or adds exactly a click, a wait
    and a key press. *)
Lemma load_more_round_run st :
  (exists e st', ReviewsPage.load_more_round E st = (Throws e, st'))
  \/ (exists st',
        ReviewsPage.load_more_round E st = (Returns tt, st')
        /\ trace st' = PressEnd :: WaitForTimeout :: Click :: trace st).
Proof.
  unfold ReviewsPage.load_more_round. rewrite bind_do.
  destruct (raises E Click _) as [e|]; [left; eauto|].
  rewrite bind_do.
  destruct (raises E WaitForTimeout _) as [e|]; [left; eauto|].
  rewrite do_run.
  destruct (raises E PressEnd _) as [e|]; [left; eauto|].
  right. eexists. split; reflexivity.
Qed.

Lemma query_selector_run st :
  query_selector E st
  = match raises E QuerySelector (count QuerySelector (trace st)) with
    | Some e => (Throws e, record QuerySelector st)
    | None => (Returns (load_more E (count QuerySelector (trace st))),
               record QuerySelector st)
    end.
Proof.
  unfold query_selector, bind, perform, ret.
  destruct (raises E QuerySelector _); reflexivity.
Qed.

Lemma polling_loop_terminates n : forall st fuel,
  load_more E (count QuerySelector (trace st) + n) = false ->
  n < fuel ->
  fst (ReviewsPage.polling_loop E fuel st) <> Looping.
Proof.
  induction n as [|n IH]; intros st fuel Hmiss Hfuel;
    (destruct fuel as [|f]; [lia|]);
    cbn [ReviewsPage.polling_loop]; unfold bind at 1;
    rewrite query_selector_run;
    (destruct (raises E QuerySelector _) as [e|]; [discriminate|]).
  - rewrite Nat.add_0_r in Hmiss. rewrite Hmiss. discriminate.
  - destruct (load_more E (count QuerySelector (trace st))); [|discriminate].
    unfold bind at 1.
    destruct (load_more_round_run (record QuerySelector st))
      as [(e & st' & ->) | (st' & -> & Ht)]; [discriminate|].
    apply IH; [|lia].
    rewrite Ht. cbn [count call_eqb record trace].
    rewrite <- Hmiss. f_equal. lia.
Qed.

Lemma load_more_round_quiet st :
  (forall c k, raises E c k = None) ->
  exists st',
    ReviewsPage.load_more_round E st = (Returns tt, st')
    /\ trace st' = PressEnd :: WaitForTimeout :: Click :: trace st.
Proof.
  intros Hq. destruct (load_more_round_run st) as [(e & st' & H) | H]; [|exact H].
  exfalso. revert H.
  unfold ReviewsPage.load_more_round.
  rewrite bind_do, Hq, bind_do, Hq, do_run, Hq. discriminate.
Qed.

Lemma polling_loop_exits_at_first_miss n : forall st fuel,
  (forall c k, raises E c k = None) ->
  (forall i, i < n -> load_more E (count QuerySelector (trace st) + i) = true) ->
  load_more E (count QuerySelector (trace st) + n) = false ->
  n < fuel ->
  exists st',
    ReviewsPage.polling_loop E fuel st = (Returns tt, st')
    /\ count QuerySelector (trace st') = count QuerySelector (trace st) + n + 1
    /\ count Click (trace st') = count Click (trace st) + n
    /\ hd_error (trace st') = Some QuerySelector.
Proof.
  induction n as [|n IH]; intros st fuel Hq Hhit Hmiss Hfuel;
    (destruct fuel as [|f]; [lia|]);
    cbn [ReviewsPage.polling_loop]; unfold bind at 1;
    rewrite query_selector_run, Hq.
  - rewrite Nat.add_0_r in Hmiss. rewrite Hmiss.
    eexists. split; [reflexivity|].
    cbn [record trace count call_eqb hd_error]. repeat split; lia.
  - pose proof (Hhit 0 ltac:(lia)) as Hh. rewrite Nat.add_0_r in Hh.
    rewrite Hh. unfold bind at 1.
    destruct (load_more_round_quiet (record QuerySelector st) Hq) as (st1 & -> & Ht).
    assert (Hc : count QuerySelector (trace st1)
                 = S (count QuerySelector (trace st))).
    { rewrite Ht. reflexivity. }
    destruct (IH st1 f Hq) as (st' & Hrun & Hqs & Hcl & Hhd).
    + intros i Hi. rewrite Hc.
      replace (S (count QuerySelector (trace st)) + i)
        with (count QuerySelector (trace st) + S i) by lia.
      apply Hhit. lia.
    + rewrite Hc. rewrite <- Hmiss. f_equal. lia.
    + lia.
    + exists st'. split; [exact Hrun|].
      rewrite Hqs, Hcl, Hc, Ht. cbn [count call_eqb record trace].
      repeat split; [lia|lia|exact Hhd].
Qed.

Lemma bind_finishes_at {A B} (m : M A) (k : A -> M B) st :
  fst (m st) <> Looping -> (forall a, finishes (k a)) ->
  fst (bind m k st) <> Looping.
Proof.
  intros Hm Hk. unfold bind. destruct (m st) as [[a|e|] st1]; cbn [fst] in *.
  - apply Hk.
  - discriminate.
  - contradiction.
Qed.

Lemma bind_do_finishes_at {B} c (k : unit -> M B) st :
  fst (k tt (effect c (record c st))) <> Looping ->
  fst (bind (do_ E c) k st) <> Looping.
Proof.
  intros Hk. rewrite bind_do. destruct (raises E c _); [discriminate|exact Hk].
Qed.

Lemma with_finishes_at {A} (body : M A) st :
  fst (body (effect Start (record Start st))) <> Looping ->
  fst (with_sync_playwright E body st) <> Looping.
Proof.
  intros Hb. unfold with_sync_playwright, perform.
  destruct (raises E Start _); [discriminate|].
  destruct (body _) as [[a|e|] st2]; cbn [fst] in *;
    [discriminate|discriminate|contradiction].
Qed.

(** Enough fuel lets [render_full_page] finish as soon as one lookup
    misses. *)
Lemma render_full_page_finishes n fuel :
  load_more E n = false -> n < fuel ->
  fst (ReviewsPage.render_full_page E fuel init) <> Looping.
Proof.
  intros Hmiss Hfuel. unfold ReviewsPage.render_full_page.
  apply with_finishes_at.
  do 3 apply bind_do_finishes_at.
  apply bind_finishes_at.
  - apply (polling_loop_terminates n); [exact Hmiss|exact Hfuel].
  - intros _.
    repeat (first [ apply finishes_do | apply finishes_content
                  | apply finishes_ret
                  | apply finishes_bind; [|intros ?] ]).
Qed.

End Session.

(** C4: whatever the environment does, when [fetch_rendered_html] or
    [render_full_page] returns or raises, neither the driver nor the
    browser is left, and the exit of the [with] statement is the last call
    made; [fetch_rendered_html] always does one or the other, and so does
    [render_full_page] as soon as one lookup misses. *)
Theorem session_released_on_every_path (E : env) :
  (forall r st,
      LiveScrape.fetch_rendered_html E init = (r, st) ->
      r <> Looping
      /\ released st = true
      /\ (raises E Start 0 = None -> hd_error (trace st) = Some Stop))
  /\ (forall fuel r st,
         ReviewsPage.render_full_page E fuel init = (r, st) ->
         r <> Looping ->
         released st = true
         /\ (raises E Start 0 = None -> hd_error (trace st) = Some Stop))
  /\ (forall n fuel,
         load_more E n = false -> n < fuel ->
         fst (ReviewsPage.render_full_page E fuel init) <> Looping).
Proof.
  split; [|split; [|exact (render_full_page_finishes E)]].
  - intros r st Hrun.
    assert (Hr : r <> Looping).
    { pose proof (finishes_fetch_rendered_html E init) as H.
      rewrite Hrun in H. exact H. }
    split; [exact Hr|].
    exact (with_releases E _ init r st eq_refl Hrun Hr).
  - intros fuel r st Hrun Hr.
    exact (with_releases E _ init r st eq_refl Hrun Hr).
Qed.

Lemma session_released_on_every_path_witness :
  released
    (snd (ReviewsPage.render_full_page click_fails_second_time 5 init)) = true
  /\ (raises click_fails_second_time Start 0 = None ->
      hd_error
        (trace (snd (ReviewsPage.render_full_page click_fails_second_time 5 init)))
      = Some Stop).
Proof.
  apply (proj1 (proj2 (session_released_on_every_path click_fails_second_time)) 5
               (Throws (PlaywrightError "detached"))).
  - reflexivity.
  - discriminate.
Defined.

(** C5: if the lookup number [n] from the current state finds no button,
    the loop ends within [n + 1] lookups; and when the lookups before it
    all find the button and no call raises, it ends right at that lookup,
    after [n] clicks, without a call after it. *)
Theorem polling_loop_stops_at_first_no_match (E : env) (st : state) (n : nat) :
  load_more E (count QuerySelector (trace st) + n) = false ->
  (forall fuel, n < fuel ->
     fst (ReviewsPage.polling_loop E fuel st) <> Looping)
  /\ ((forall c k, raises E c k = None) ->
      (forall i, i < n ->
         load_more E (count QuerySelector (trace st) + i) = true) ->
      forall fuel, n < fuel ->
      exists st',
        ReviewsPage.polling_loop E fuel st = (Returns tt, st')
        /\ count QuerySelector (trace st')
           = count QuerySelector (trace st) + n + 1
        /\ count Click (trace st') = count Click (trace st) + n
        /\ hd_error (trace st') = Some QuerySelector).
Proof.
  intros Hmiss. split.
  - intros fuel Hf. exact (polling_loop_terminates E n st fuel Hmiss Hf).
  - intros Hq Hhit fuel Hf.
    exact (polling_loop_exits_at_first_miss E n st fuel Hq Hhit Hmiss Hf).
Qed.

Lemma polling_loop_stops_at_first_no_match_witness :
  fst (ReviewsPage.polling_loop two_more_pages 3 init) <> Looping
  /\ exists st',
       ReviewsPage.polling_loop two_more_pages 3 init = (Returns tt, st')
       /\ count QuerySelector (trace st') = 3
       /\ count Click (trace st') = 2
       /\ hd_error (trace st') = Some QuerySelector.
Proof.
  split.
  - apply (proj1 (polling_loop_stops_at_first_no_match
                    two_more_pages init 2 eq_refl) 3).
    repeat constructor.
  - apply (proj2 (polling_loop_stops_at_first_no_match
                    two_more_pages init 2 eq_refl)).
    + reflexivity.
    + intros i Hi. destruct i as [|[|i]]; [reflexivity|reflexivity|lia].
    + repeat constructor.
Defined.

(** ** More on the browser session *)

Import Footprint.

Section SessionMore.

Variable E : env.

Lemma bind_returns {A B} (m : M A) (k : A -> M B) st b st' :
  bind m k st = (Returns b, st') ->
  exists a st1, m st = (Returns a, st1) /\ k a st1 = (Returns b, st').
Proof.
  unfold bind. destruct (m st) as [[a|e|] st1]; try discriminate.
  intros H. exists a, st1. split; [reflexivity|exact H].
Qed.

Lemma do_returns c st u st1 :
  do_ E c st = (Returns u, st1) ->
  st1 = effect c (record c st) /\ raises E c (count c (trace st)) = None.
Proof.
  rewrite do_run. destruct (raises E c _); [discriminate|].
  intros H. injection H as _ <-. split; reflexivity.
Qed.

Lemma content_returns st h st1 :
  content E st = (Returns h, st1) ->
  h = html E (count Content (trace st)) /\ st1 = record Content st.
Proof.
  unfold content, bind, perform, ret.
  destruct (raises E Content _); [discriminate|].
  intros H. injection H as <- <-. split; reflexivity.
Qed.

Lemma with_returns {A} (body : M A) st a st' :
  with_sync_playwright E body st = (Returns a, st') ->
  exists st2,
    body (effect Start (record Start st)) = (Returns a, st2)
    /\ st' = effect Stop (record Stop st2).
Proof.
  unfold with_sync_playwright, perform.
  destruct (raises E Start _); [discriminate|].
  destruct (body _) as [[x|e|] st2]; try discriminate.
  intros H. injection H as <- <-. exists st2. split; reflexivity.
Qed.

Lemma try_rethrow {A} (m : M A) st :
  try_except m (fun e => throw e) st = m st.
Proof. unfold try_except, throw. destruct (m st) as [[a|e|] st1]; reflexivity. Qed.

Lemma rounds_shift n : (rounds n ++ round = round ++ rounds n)%list.
Proof.
  unfold rounds. induction n as [|n IH]; [reflexivity|].
  cbn [repeat List.concat]. rewrite <- app_assoc, IH. reflexivity.
Qed.

(** When the loop ends by its [break], it has gone through some number of
    full rounds and one last lookup, which missed. *)
Lemma polling_loop_returns fuel : forall st st',
  ReviewsPage.polling_loop E fuel st = (Returns tt, st') ->
  exists n,
    n < fuel
    /\ trace st' = (QuerySelector :: rounds n ++ trace st)%list
    /\ load_more E (count QuerySelector (trace st) + n) = false
    /\ (forall i, i < n -> load_more E (count QuerySelector (trace st) + i) = true)
    /\ driver_running st' = driver_running st
    /\ browser_open st' = browser_open st.
Proof.
  induction fuel as [|f IH]; intros st st' H; [discriminate H|].
  cbn [ReviewsPage.polling_loop] in H. unfold bind at 1 in H.
  rewrite query_selector_run in H.
  destruct (raises E QuerySelector _); [discriminate H|].
  destruct (load_more E (count QuerySelector (trace st))) eqn:Ef.
  - unfold bind at 1 in H.
    unfold ReviewsPage.load_more_round in H.
    rewrite bind_do in H. destruct (raises E Click _); [discriminate H|].
    rewrite bind_do in H. destruct (raises E WaitForTimeout _); [discriminate H|].
    rewrite do_run in H. destruct (raises E PressEnd _); [discriminate H|].
    destruct (IH _ _ H) as (n & Hn & Ht & Hmiss & Hhit & Hd & Hb).
    cbn [effect record trace count call_eqb driver_running browser_open] in *.
    exists (S n). repeat split.
    + lia.
    + rewrite Ht. change (rounds (S n)) with (round ++ rounds n)%list.
      rewrite <- rounds_shift, <- app_assoc. reflexivity.
    + rewrite <- Hmiss. f_equal. lia.
    + intros i Hi. destruct i as [|i].
      * rewrite Nat.add_0_r. exact Ef.
      * replace (count QuerySelector (trace st) + S i)
          with (S (count QuerySelector (trace st)) + i) by lia.
        apply Hhit. lia.
    + exact Hd.
    + exact Hb.
  - injection H as <-. exists 0. repeat split.
    + lia.
    + rewrite Nat.add_0_r. exact Ef.
    + intros i Hi. lia.
Qed.

Lemma polling_loop_never_ends fuel : forall st,
  quiet E -> (forall k, load_more E k = true) ->
  exists st',
    ReviewsPage.polling_loop E fuel st = (Looping, st')
    /\ driver_running st' = driver_running st
    /\ browser_open st' = browser_open st
    /\ count WriteFile (trace st') = count WriteFile (trace st).
Proof.
  induction fuel as [|f IH]; intros st Hq Hm.
  - exists st. repeat split.
  - cbn [ReviewsPage.polling_loop]. unfold bind at 1.
    rewrite query_selector_run, Hq, Hm. unfold bind at 1.
    unfold ReviewsPage.load_more_round.
    rewrite bind_do, Hq, bind_do, Hq, do_run, Hq.
    destruct (IH (effect PressEnd (record PressEnd
                   (effect WaitForTimeout (record WaitForTimeout
                     (effect Click (record Click (record QuerySelector st)))))))
                 Hq Hm) as (st' & -> & Hd & Hb & Hw).
    exists st'. repeat split; [exact Hd|exact Hb|exact Hw].
Qed.

(** *** Footprints *)

Lemma only_ret {A} allowed (a : A) : only_calls allowed (ret a).
Proof. intros st r st' H. injection H as <- <-. exists []. split; reflexivity. Qed.

Lemma only_throw {A} allowed (e : exn) : only_calls allowed (@throw A e).
Proof. intros st r st' H. injection H as <- <-. exists []. split; reflexivity. Qed.

Lemma only_perform allowed c : allowed c = true -> only_calls allowed (perform E c).
Proof.
  intros Hc st r st' H. unfold perform in H.
  exists [c]. destruct (raises E c _); injection H as <- <-.
  - split; [reflexivity|]. cbn [forallb]. rewrite Hc. reflexivity.
  - split; [destruct c; reflexivity|]. cbn [forallb]. rewrite Hc. reflexivity.
Qed.

Lemma only_bind {A B} allowed (m : M A) (k : A -> M B) :
  only_calls allowed m -> (forall a, only_calls allowed (k a)) ->
  only_calls allowed (bind m k).
Proof.
  intros Hm Hk st r st' H. unfold bind in H.
  destruct (m st) as [[a|e|] st1] eqn:Em.
  - destruct (Hm _ _ _ Em) as (l1 & Ht1 & Ha1).
    destruct (Hk a _ _ _ H) as (l2 & Ht2 & Ha2).
    exists (l2 ++ l1)%list. split.
    + rewrite Ht2, Ht1, app_assoc. reflexivity.
    + rewrite forallb_app, Ha1, Ha2. reflexivity.
  - injection H as <- <-. exact (Hm _ _ _ Em).
  - injection H as <- <-. exact (Hm _ _ _ Em).
Qed.

Lemma only_do allowed c : allowed c = true -> only_calls allowed (do_ E c).
Proof.
  intros Hc. apply only_bind; [apply only_perform, Hc|intros; apply only_ret].
Qed.

Lemma only_content allowed : allowed Content = true -> only_calls allowed (content E).
Proof.
  intros Hc. apply only_bind; [apply only_perform, Hc|intros; apply only_ret].
Qed.

Lemma only_try {A} allowed (m : M A) (h : exn -> M A) :
  only_calls allowed m -> (forall e, only_calls allowed (h e)) ->
  only_calls allowed (try_except m h).
Proof.
  intros Hm Hh st r st' H. unfold try_except in H.
  destruct (m st) as [[a|e|] st1] eqn:Em.
  - injection H as <- <-. exact (Hm _ _ _ Em).
  - destruct (Hm _ _ _ Em) as (l1 & Ht1 & Ha1).
    destruct (Hh e _ _ _ H) as (l2 & Ht2 & Ha2).
    exists (l2 ++ l1)%list. split.
    + rewrite Ht2, Ht1, app_assoc. reflexivity.
    + rewrite forallb_app, Ha1, Ha2. reflexivity.
  - injection H as <- <-. exact (Hm _ _ _ Em).
Qed.

Lemma only_with {A} allowed (body : M A) :
  allowed Start = true -> allowed Stop = true ->
  only_calls allowed body -> only_calls allowed (with_sync_playwright E body).
Proof.
  intros Hs Hp Hb st r st' H. unfold with_sync_playwright, perform in H.
  destruct (raises E Start _).
  - injection H as <- <-. exists [Start]. split; [reflexivity|].
    cbn [forallb]. rewrite Hs. reflexivity.
  - destruct (body _) as [[a|e|] st2] eqn:Eb;
      destruct (Hb _ _ _ Eb) as (l & Ht & Ha); injection H as <- <-.
    + exists (Stop :: l ++ [Start])%list. split.
      * cbn [effect record trace] in *.
        rewrite Ht, <- app_comm_cons, <- app_assoc. reflexivity.
      * cbn [forallb]. rewrite Hp, forallb_app, Ha. cbn [forallb].
        rewrite Hs. reflexivity.
    + exists (Stop :: l ++ [Start])%list. split.
      * cbn [effect record trace] in *.
        rewrite Ht, <- app_comm_cons, <- app_assoc. reflexivity.
      * cbn [forallb]. rewrite Hp, forallb_app, Ha. cbn [forallb].
        rewrite Hs. reflexivity.
    + exists (l ++ [Start])%list. split.
      * cbn [effect record trace] in *. rewrite Ht, <- app_assoc. reflexivity.
      * rewrite forallb_app, Ha. cbn [forallb]. rewrite Hs. reflexivity.
Qed.

Lemma count_not_allowed allowed c l :
  forallb allowed l = true -> allowed c = false -> count c l = 0.
Proof.
  intros Hl Hc. induction l as [|d r IH]; [reflexivity|].
  cbn [forallb] in Hl. apply andb_true_iff in Hl. destruct Hl as [Hd Hr].
  cbn [count]. destruct (call_eqb c d) eqn:Ec; [|exact (IH Hr)].
  assert (c = d) by (destruct c, d; try discriminate Ec; reflexivity).
  subst d. rewrite Hc in Hd. discriminate.
Qed.

End SessionMore.

Ltac invert_run H :=
  repeat match type of H with
  | bind (do_ _ ?c) _ _ = (Returns _, _) =>
      let u := fresh "u" in let s := fresh "st" in
      let H1 := fresh "Hdo" in let H2 := fresh "Hrest" in
      apply bind_returns in H; destruct H as (u & s & H1 & H2);
      apply do_returns in H1; destruct H1 as [-> _];
      rename H2 into H
  | bind (content _) _ _ = (Returns _, _) =>
      let a := fresh "page" in let s := fresh "st" in
      let H1 := fresh "Hc" in let H2 := fresh "Hrest" in
      apply bind_returns in H; destruct H as (a & s & H1 & H2);
      apply content_returns in H1; destruct H1 as [-> ->];
      rename H2 into H
  end.

Lemma count_app c a b : count c (a ++ b) = count c a + count c b.
Proof.
  induction a as [|d r IH]; [reflexivity|].
  cbn [app count]. destruct (call_eqb c d); rewrite IH; reflexivity.
Qed.

Lemma count_content_rounds n : count Content (rounds n) = 0.
Proof.
  unfold rounds. induction n as [|n IH]; [reflexivity|].
  cbn [repeat List.concat]. rewrite count_app, IH. reflexivity.
Qed.

(** X10: when [render_full_page] returns, it returns what the first
    [page.content()] gave; it has gone through some number n of full
    rounds (lookup, click, wait, key press), the lookups of which all found
    the button, and one last lookup, which missed; it has then pressed
    End, slept, captured the page, written the file and closed the
    browser, in that order; and the session is released. *)
Theorem render_full_page_returns (E : env) (fuel : nat) (h : string) (st : state) :
  ReviewsPage.render_full_page E fuel init = (Returns h, st) ->
  exists n,
    n < fuel
    /\ h = html E 0
    /\ trace st
       = ([Stop; BrowserClose; WriteFile; MakeDirs; Content; Sleep; PressEnd;
           QuerySelector] ++ rounds n ++ [Goto; NewPage; Launch; Start])%list
    /\ load_more E n = false
    /\ (forall i, i < n -> load_more E i = true)
    /\ released st = true.
Proof.
  intros H. unfold ReviewsPage.render_full_page in H.
  apply with_returns in H. destruct H as (st2 & H & ->).
  invert_run H.
  apply bind_returns in H. destruct H as ([] & st3 & Hloop & H).
  apply polling_loop_returns in Hloop.
  destruct Hloop as (n & Hn & Ht & Hmiss & Hhit & _ & _).
  invert_run H. injection H as <- <-.
  cbn [effect record trace count call_eqb Nat.add init] in *.
  rewrite Ht. cbn [count call_eqb].
  rewrite count_app, count_content_rounds.
  exists n. repeat split; assumption.
Qed.

Lemma render_full_page_returns_witness :
  exists n,
    n < 3
    /\ "<html></html>"%string = html two_more_pages 0
    /\ trace (snd (ReviewsPage.render_full_page two_more_pages 3 init))
       = ([Stop; BrowserClose; WriteFile; MakeDirs; Content; Sleep; PressEnd;
           QuerySelector] ++ rounds n ++ [Goto; NewPage; Launch; Start])%list
    /\ load_more two_more_pages n = false
    /\ (forall i, i < n -> load_more two_more_pages i = true)
    /\ released (snd (ReviewsPage.render_full_page two_more_pages 3 init)) = true.
Proof.
  exact (render_full_page_returns two_more_pages 3 "<html></html>"%string
           (snd (ReviewsPage.render_full_page two_more_pages 3 init)) eq_refl).
Defined.

(** X11: the loop has no bound of its own: while the button keeps being
    found and nothing fails, [render_full_page] is still looping after any
    number of lookups, with the driver running, the browser open and no
    file written. *)
Theorem render_full_page_has_no_bound (E : env) (fuel : nat) :
  quiet E -> (forall k, load_more E k = true) ->
  exists st,
    ReviewsPage.render_full_page E fuel init = (Looping, st)
    /\ driver_running st = true
    /\ browser_open st = true
    /\ count WriteFile (trace st) = 0.
Proof.
  intros Hq Hm. unfold ReviewsPage.render_full_page, with_sync_playwright, perform.
  rewrite Hq. rewrite bind_do, Hq, bind_do, Hq, bind_do, Hq.
  unfold bind at 1.
  destruct (polling_loop_never_ends E fuel
              (effect Goto (record Goto (effect NewPage (record NewPage
                 (effect Launch (record Launch (effect Start (record Start init))))))))
              Hq Hm) as (st' & -> & Hd & Hb & Hw).
  exists st'. repeat split; [exact Hd|exact Hb|exact Hw].
Qed.

Lemma render_full_page_has_no_bound_witness :
  exists st,
    ReviewsPage.render_full_page always_more 1000 init = (Looping, st)
    /\ driver_running st = true
    /\ browser_open st = true
    /\ count WriteFile (trace st) = 0.
Proof.
  apply (render_full_page_has_no_bound always_more 1000).
  - intros c k. reflexivity.
  - intros k. reflexivity.
Defined.

(** X12: when [fetch_rendered_html] of the live-scrape script returns, it
    returns what [page.content()] gave, after exactly these calls in this
    order: start, launch, new context, new page, goto, wait for the tiles,
    scroll, sleep, content, close, stop; nothing is left running. *)
Theorem live_scrape_returns (E : env) (h : string) (st : state) :
  LiveScrape.fetch_rendered_html E init = (Returns h, st) ->
  h = html E 0
  /\ st = {| trace := [Stop; BrowserClose; Content; Sleep; Evaluate;
                       WaitForSelector; Goto; NewPage; NewContext; Launch; Start];
             driver_running := false;
             browser_open := false |}.
Proof.
  intros H. unfold LiveScrape.fetch_rendered_html in H.
  apply with_returns in H. destruct H as (st2 & H & ->).
  invert_run H.
  apply bind_returns in H. destruct H as (uw & st3 & Hw & H).
  rewrite try_rethrow in Hw. apply do_returns in Hw. destruct Hw as [-> _].
  invert_run H. injection H as <- <-.
  split; reflexivity.
Qed.

Lemma live_scrape_returns_witness :
  "<html></html>"%string = html two_more_pages 0
  /\ snd (LiveScrape.fetch_rendered_html two_more_pages init)
     = {| trace := [Stop; BrowserClose; Content; Sleep; Evaluate;
                    WaitForSelector; Goto; NewPage; NewContext; Launch; Start];
          driver_running := false;
          browser_open := false |}.
Proof.
  exact (live_scrape_returns two_more_pages "<html></html>"%string
           (snd (LiveScrape.fetch_rendered_html two_more_pages init)) eq_refl).
Defined.




Lemma live_scrape_footprint (E : env) :
  only_calls (fun c => negb (is_disk_call c)) (LiveScrape.fetch_rendered_html E).
Proof.
  unfold LiveScrape.fetch_rendered_html.
  apply only_with; [reflexivity|reflexivity|].
  repeat (first [ apply only_do; reflexivity
                | apply only_content; reflexivity
                | apply only_ret | apply only_throw
                | apply only_try; [|intros ?]
                | apply only_bind; [|intros ?] ]).
Qed.

(** X14: on no path does [fetch_rendered_html] of the live-scrape script
    create a directory or write a file. *)
Theorem live_scrape_never_touches_the_disk (E : env) (r : outcome string) (st : state) :
  LiveScrape.fetch_rendered_html E init = (r, st) ->
  count MakeDirs (trace st) = 0 /\ count WriteFile (trace st) = 0.
Proof.
  intros H. destruct (live_scrape_footprint E init r st H) as (l & Ht & Ha).
  rewrite Ht, app_nil_r.
  split; apply (count_not_allowed _ _ _ Ha); reflexivity.
Qed.

Lemma live_scrape_never_touches_the_disk_witness :
  count MakeDirs
    (trace (snd (LiveScrape.fetch_rendered_html click_fails_second_time init))) = 0
  /\ count WriteFile
    (trace (snd (LiveScrape.fetch_rendered_html click_fails_second_time init))) = 0.
Proof.
  exact (live_scrape_never_touches_the_disk click_fails_second_time
           (fst (LiveScrape.fetch_rendered_html click_fails_second_time init))
           (snd (LiveScrape.fetch_rendered_html click_fails_second_time init))
           eq_refl).
Defined.

Lemma finishes_minimal_fetch (E : env) : finishes (MinimalPage.fetch_rendered_html E).
Proof.
  unfold MinimalPage.fetch_rendered_html.
  apply finishes_with.
  repeat (first [ apply finishes_do | apply finishes_content
                | apply finishes_ret
                | apply finishes_bind; [|intros ?] ]).
Qed.

(** X15: [fetch_rendered_html] of the minimal script always returns or
    raises, and the session is released either way; when it returns, it
    returns what [page.content()] gave, after sleeping before and after the
    scroll, and after writing the file before it closes the browser. *)
Theorem minimal_fetch_rendered_html_runs (E : env) (r : outcome string) (st : state) :
  MinimalPage.fetch_rendered_html E init = (r, st) ->
  r <> Looping
  /\ released st = true
  /\ (forall h, r = Returns h ->
        h = html E 0
        /\ trace st = [Stop; BrowserClose; WriteFile; MakeDirs; Content; Sleep;
                       Evaluate; Sleep; Goto; NewPage; Launch; Start]).
Proof.
  intros H.
  assert (Hr : r <> Looping).
  { pose proof (finishes_minimal_fetch E init) as F. rewrite H in F. exact F. }
  split; [exact Hr|]. split.
  - exact (proj1 (with_releases E _ init r st eq_refl H Hr)).
  - intros h ->. unfold MinimalPage.fetch_rendered_html in H.
    apply with_returns in H. destruct H as (st2 & H & ->).
    invert_run H. injection H as <- <-. split; reflexivity.
Qed.

Lemma minimal_fetch_rendered_html_runs_witness :
  fst (MinimalPage.fetch_rendered_html two_more_pages init) <> Looping
  /\ released (snd (MinimalPage.fetch_rendered_html two_more_pages init)) = true
  /\ (forall h,
        fst (MinimalPage.fetch_rendered_html two_more_pages init) = Returns h ->
        h = html two_more_pages 0
        /\ trace (snd (MinimalPage.fetch_rendered_html two_more_pages init))
           = [Stop; BrowserClose; WriteFile; MakeDirs; Content; Sleep;
              Evaluate; Sleep; Goto; NewPage; Launch; Start]).
Proof.
  exact (minimal_fetch_rendered_html_runs two_more_pages
           (fst (MinimalPage.fetch_rendered_html two_more_pages init))
           (snd (MinimalPage.fetch_rendered_html two_more_pages init))
           eq_refl).
Defined.
